(** * Churn metrics and check-in rules of [app/api/routes.py]

    A shallow embedding of the routes module of the gym membership tracker:
    the churn-metrics function [calcular_metricas_churn], the check-in
    endpoint [create_checkin] with its enrolment gate, the prediction
    endpoint [predict_churn] and the remaining CRUD endpoints, followed by
    the properties stated about them.

    Conventions of the embedding.
    - A naive [datetime] is the integer number of microseconds since a fixed
      origin, a [timedelta] a signed number of microseconds, a [date] a
      number of days since the same origin.
    - Python's [float] results are represented by the exact rational they
      round: [a / b] on integers and on floats is [Qdiv].
    - The SQLAlchemy session is a record of two tables, each a list of rows
      in insertion order; the wall clock [datetime.utcnow] is an oracle that
      is part of the world and is advanced by every reading.
    - Endpoints live in a state-and-exception monad over that world. *)

From Stdlib Require Import ZArith QArith List String Lia.
From Stdlib Require Import Sorted Permutation.
Import ListNotations.

Local Open Scope string_scope.
Local Open Scope Z_scope.

(** ** Dates and times *)

Module Datetime.

Definition datetime := Z.
Definition timedelta := Z.
Definition date := Z.

Definition us_per_second : Z := 1000000.
Definition us_per_day : Z := 86400 * us_per_second.

(** [a - b] on two datetimes. *)
Definition sub (a b : datetime) : timedelta := a - b.

(** [td.days]: timedeltas are normalised with [0 <= seconds < 86400], so
    the day count is the floor of the quotient, negative for negative
    spans. *)
Definition days (td : timedelta) : Z := td / us_per_day.

(** [td.total_seconds()]. *)
Definition total_seconds (td : timedelta) : Q :=
  (inject_Z td / inject_Z us_per_second)%Q.

(** [dt.date()]. *)
Definition date_of (dt : datetime) : date := dt / us_per_day.

(** A date read back as a datetime is midnight of that day. *)
Definition at_midnight (d : date) : datetime := d * us_per_day.

End Datetime.
Import Datetime.

(** ** Stored entities *)

(** Modelled from the spec: the [Aluno] table of [app.models] is not part of
    the sources; the fields are those the routes read and write.  The
    enrolment start is a point in time that [hoje - aluno.data_matricula]
    can be taken from, the cancellation date a date that [data_atual.date()]
    is compared with. *)
Record Aluno : Type := {
  matricula : Z;
  nome : string;
  data_nascimento : date;
  genero : string;
  email : string;
  plano_id : Z;
  data_matricula : datetime;
  matricula_ativa : bool;
  data_cancelamento : option date
}.

(** Modelled from the spec: the [Checkin] table of [app.models] is not part
    of the sources; an entry timestamp that is always present and an
    optional exit timestamp, null unless it is given. *)
Record Checkin : Type := {
  aluno_id : Z;
  data_hora_entrada : datetime;
  data_hora_saida : option datetime
}.

(** Request bodies (the pydantic models). *)
Module AlunoCreate.
Record t : Type := {
  nome : string;
  data_nascimento : string;
  genero : string;
  email : string;
  plano_id : Z;
  data_matricula : string;
  matricula_ativa : bool;
  data_cancelamento : option string
}.
End AlunoCreate.

Module CheckinCreate.
Record t : Type := { aluno_id : Z }.
End CheckinCreate.

(** The dictionary returned by [calcular_metricas_churn]. *)
Module Metricas.
Record t : Type := {
  frequencia_semanal : Q;
  tempo_ultimo_checkin : Z;
  duracao_media : Q;
  plano_id : Z;
  churn : Z
}.
End Metricas.

(** ** The world: clock and session *)

Record Session : Type := {
  alunos : list Aluno;
  checkins : list Checkin
}.

Record World : Type := {
  relogio : nat -> datetime;   (* the n-th reading of the wall clock *)
  leituras : nat;              (* readings taken so far *)
  db : Session
}.

Inductive exc : Type :=
| HTTPException (status_code : Z) (detail : string)
| ValueError
| IndexError.

Definition M (A : Type) : Type := World -> (exc + A) * World.

Definition ret {A} (x : A) : M A := fun w => (inr x, w).

Definition bind {A B} (c : M A) (k : A -> M B) : M B :=
  fun w =>
    match c w with
    | (inr x, w') => k x w'
    | (inl e, w') => (inl e, w')
    end.

Definition raise {A} (e : exc) : M A := fun w => (inl e, w).

Notation "x <- c ;; k" := (bind c (fun x => k))
  (at level 61, c at next level, right associativity).
Notation "c ;;; k" := (bind c (fun _ => k))
  (at level 61, right associativity).

(** [datetime.utcnow()] *)
Definition utcnow : M datetime :=
  fun w => (inr (relogio w (leituras w)),
            {| relogio := relogio w; leituras := S (leituras w); db := db w |}).

(** [db.query(Checkin).filter(p).all()] *)
Definition query_checkins_all (p : Checkin -> bool) : M (list Checkin) :=
  fun w => (inr (filter p (checkins (db w))), w).

(** [db.query(Aluno).filter(p).all()] and [.first()] *)
Definition query_alunos_all (p : Aluno -> bool) : M (list Aluno) :=
  fun w => (inr (filter p (alunos (db w))), w).

Definition query_alunos_first (p : Aluno -> bool) : M (option Aluno) :=
  fun w => (inr (find p (alunos (db w))), w).

(** [db.add(row); db.commit(); db.refresh(row)] for the two tables.  The
    primary key of a new member is assigned by the store: rows are never
    deleted, so it is the next row number. *)
Definition add_checkin (c : Checkin) : M Checkin :=
  fun w => (inr c,
            {| relogio := relogio w; leituras := leituras w;
               db := {| alunos := alunos (db w);
                        checkins := checkins (db w) ++ [c] |} |}).

Definition add_aluno (mk : Z -> Aluno) : M Aluno :=
  fun w =>
    let a := mk (Z.of_nat (List.length (alunos (db w))) + 1) in
    (inr a,
     {| relogio := relogio w; leituras := leituras w;
        db := {| alunos := alunos (db w) ++ [a];
                 checkins := checkins (db w) |} |}).

(** ** [list.sort()] on timestamps *)

Fixpoint insert_sorted (x : Z) (l : list Z) : list Z :=
  match l with
  | [] => [x]
  | y :: r => if x <=? y then x :: y :: r else y :: insert_sorted x r
  end.

Fixpoint list_sort (l : list Z) : list Z :=
  match l with
  | [] => []
  | x :: r => insert_sorted x (list_sort r)
  end.

(** [sum(xs)] on numbers: left to right from 0. *)
Definition py_sum (xs : list Q) : Q := fold_left Qplus xs 0%Q.

(** ** [calcular_metricas_churn] *)

(** The comprehension
    [[(c.data_hora_saida - c.data_hora_entrada).total_seconds() / 60
      for c in checkins if c.data_hora_saida]]. *)
Fixpoint duracoes_de (cs : list Checkin) : list Q :=
  match cs with
  | [] => []
  | c :: r =>
      match data_hora_saida c with
      | Some saida =>
          (total_seconds (sub saida (data_hora_entrada c)) / inject_Z 60)%Q
            :: duracoes_de r
      | None => duracoes_de r
      end
  end.

Definition calcular_metricas_churn (aluno : Aluno) : M Metricas.t :=
  hoje <- utcnow ;;
  checkins <- query_checkins_all (fun c => aluno_id c =? matricula aluno) ;;
  let '(frequencia_semanal, tempo_ultimo_checkin, duracao_media) :=
    match checkins with
    | _ :: _ =>
        let datas_checkins := list_sort (map data_hora_entrada checkins) in
        let primeira_data := hd 0 datas_checkins in
        let semanas := Z.max 1 (days (sub hoje primeira_data) / 7) in
        let frequencia_semanal :=
          (inject_Z (Z.of_nat (List.length checkins)) / inject_Z semanas)%Q in
        let tempo_ultimo_checkin := days (sub hoje (last datas_checkins 0)) in
        let duracoes := duracoes_de checkins in
        let duracao_media :=
          match duracoes with
          | _ :: _ =>
              (py_sum duracoes / inject_Z (Z.of_nat (List.length duracoes)))%Q
          | [] => 0%Q
          end in
        (frequencia_semanal, tempo_ultimo_checkin, duracao_media)
    | [] =>
        (0%Q, days (sub hoje (data_matricula aluno)), 0%Q)
    end in
  let churn := match data_cancelamento aluno with Some _ => 1 | None => 0 end in
  ret {| Metricas.frequencia_semanal := frequencia_semanal;
         Metricas.tempo_ultimo_checkin := tempo_ultimo_checkin;
         Metricas.duracao_media := duracao_media;
         Metricas.plano_id := plano_id aluno;
         Metricas.churn := churn |}.

(** ** Endpoints *)

(** The body returned by [GET /churn/{aluno_id}]. *)
Module ChurnResposta.
Record t : Type := {
  aluno_id : Z;
  probabilidade_churn : Q
}.
End ChurnResposta.

(** [proba[:, j]] on a two-dimensional array given by its rows. *)
Fixpoint coluna (j : nat) (rows : list (list Q)) : M (list Q) :=
  match rows with
  | [] => ret []
  | row :: r =>
      match nth_error row j with
      | Some x => xs <- coluna j r ;; ret (x :: xs)
      | None => raise IndexError
      end
  end.

(** [xs[i]] *)
Definition indice (i : nat) (xs : list Q) : M Q :=
  match nth_error xs i with
  | Some x => ret x
  | None => raise IndexError
  end.

(** [POST /checkins] *)
Definition create_checkin (checkin : CheckinCreate.t) : M Checkin :=
  aluno <- query_alunos_first
             (fun a => matricula a =? CheckinCreate.aluno_id checkin) ;;
  match aluno with
  | None => raise (HTTPException 404 "Aluno não encontrado")
  | Some aluno =>
      data_atual <- utcnow ;;
      (if negb (matricula_ativa aluno) then
         if match data_cancelamento aluno with
            | None => true
            | Some cancelamento => date_of data_atual >? cancelamento
            end
         then raise (HTTPException 400
                       "Matrícula inativa. Check-in não permitido.")
         else ret tt
       else ret tt) ;;;
      entrada <- utcnow ;;
      add_checkin {| aluno_id := CheckinCreate.aluno_id checkin;
                     data_hora_entrada := entrada;
                     data_hora_saida := None |}
  end.

(** [GET /alunos] *)
Definition get_alunos : M (list Aluno) :=
  query_alunos_all (fun _ => true).

(** [GET /checkins] *)
Definition list_checkins : M (list Checkin) :=
  query_checkins_all (fun _ => true).

(** [GET /checkins/{aluno_id}] *)
Definition list_checkins_by_aluno (id : Z) : M (list Checkin) :=
  checkins <- query_checkins_all (fun c => aluno_id c =? id) ;;
  match checkins with
  | [] => raise (HTTPException 404
                   "Nenhum check-in encontrado para este aluno")
  | _ :: _ => ret checkins
  end.

Section Routes.

(** [datetime.strptime(s, "%Y-%m-%d").date()], [None] where it raises. *)
Variable strptime_date : string -> option date.

(** [model.predict_proba], the classifier loaded from [churn_model.pkl]:
    from the rows of a feature matrix to the rows of class
    probabilities. *)
Variable predict_proba : list (list Q) -> list (list Q).

Definition parse_date (s : string) : M date :=
  match strptime_date s with
  | Some d => ret d
  | None => raise ValueError
  end.

(** [POST /alunos].  An absent or empty cancellation date is stored as
    null. *)
Definition create_aluno (aluno : AlunoCreate.t) : M Aluno :=
  db_aluno <- query_alunos_first
                (fun a => String.eqb (email a) (AlunoCreate.email aluno)) ;;
  match db_aluno with
  | Some _ => raise (HTTPException 400 "Email já cadastrado")
  | None =>
      nascimento <- parse_date (AlunoCreate.data_nascimento aluno) ;;
      inicio <- parse_date (AlunoCreate.data_matricula aluno) ;;
      cancelamento <-
        match AlunoCreate.data_cancelamento aluno with
        | None | Some EmptyString => ret None
        | Some s => d <- parse_date s ;; ret (Some d)
        end ;;
      add_aluno (fun pk =>
        {| matricula := pk;
           nome := AlunoCreate.nome aluno;
           data_nascimento := nascimento;
           genero := AlunoCreate.genero aluno;
           email := AlunoCreate.email aluno;
           plano_id := AlunoCreate.plano_id aluno;
           data_matricula := at_midnight inicio;
           matricula_ativa := AlunoCreate.matricula_ativa aluno;
           data_cancelamento := cancelamento |})
  end.

(** The feature matrix [X] of [predict_churn]: one row, without the
    churn entry. *)
Definition vetor_X (metrics : Metricas.t) : list (list Q) :=
  [[ Metricas.frequencia_semanal metrics;
     inject_Z (Metricas.tempo_ultimo_checkin metrics);
     Metricas.duracao_media metrics;
     inject_Z (Metricas.plano_id metrics) ]].

(** [GET /churn/{aluno_id}] *)
Definition predict_churn (id : Z) : M ChurnResposta.t :=
  aluno <- query_alunos_first (fun a => matricula a =? id) ;;
  match aluno with
  | None => raise (HTTPException 404 "Aluno não encontrado")
  | Some aluno =>
      metrics <- calcular_metricas_churn aluno ;;
      let X := vetor_X metrics in
      churn_prob <- coluna 1 (predict_proba X) ;;
      p <- indice 0 churn_prob ;;
      ret {| ChurnResposta.aluno_id := id;
             ChurnResposta.probabilidade_churn := p |}
  end.

(** The interface as a whole: one request, one handler. *)
Inductive request : Type :=
| POST_alunos (aluno : AlunoCreate.t)
| GET_alunos
| POST_checkins (checkin : CheckinCreate.t)
| GET_checkins
| GET_checkins_aluno (id : Z)
| GET_churn (id : Z).

Inductive response : Type :=
| RAluno (a : Aluno)
| RAlunos (l : list Aluno)
| RCheckin (c : Checkin)
| RCheckins (l : list Checkin)
| RChurn (r : ChurnResposta.t).

Definition handle (req : request) : M response :=
  match req with
  | POST_alunos aluno => a <- create_aluno aluno ;; ret (RAluno a)
  | GET_alunos => l <- get_alunos ;; ret (RAlunos l)
  | POST_checkins checkin => c <- create_checkin checkin ;; ret (RCheckin c)
  | GET_checkins => l <- list_checkins ;; ret (RCheckins l)
  | GET_checkins_aluno id => l <- list_checkins_by_aluno id ;; ret (RCheckins l)
  | GET_churn id => r <- predict_churn id ;; ret (RChurn r)
  end.

(** The worlds the interface can reach from an empty store. *)
Inductive reachable : World -> Prop :=
| reach_init : forall rel n,
    reachable {| relogio := rel; leituras := n;
                 db := {| alunos := []; checkins := [] |} |}
| reach_step : forall w req,
    reachable w -> reachable (snd (handle req w)).

End Routes.

(** ** Vocabulary of the statements *)

(** The instant the next reading of the clock returns: the [now] of an
    invocation that starts in [w]. *)
Definition agora (w : World) : datetime := relogio w (leituras w).

(** The event history of a member: the rows the query of
    [calcular_metricas_churn] selects. *)
Definition historico (a : Aluno) (w : World) : list Checkin :=
  filter (fun c => aluno_id c =? matricula a) (checkins (db w)).

Definition entradas (evs : list Checkin) : list datetime :=
  map data_hora_entrada evs.

(** Smallest and largest element of a list of timestamps ([d] when it is
    empty). *)
Definition earliest (d : datetime) (l : list datetime) : datetime :=
  match l with
  | [] => d
  | x :: r => fold_right Z.min x r
  end.

Definition latest (d : datetime) (l : list datetime) : datetime :=
  match l with
  | [] => d
  | x :: r => fold_right Z.max x r
  end.

Definition has_exit (c : Checkin) : bool :=
  match data_hora_saida c with
  | Some _ => true
  | None => false
  end.

(** Length of a visit in minutes: (exit - entry) in seconds, over 60. *)
Definition visit_minutes (c : Checkin) : Q :=
  match data_hora_saida c with
  | Some saida =>
      (total_seconds (sub saida (data_hora_entrada c)) / inject_Z 60)%Q
  | None => 0%Q
  end.

Definition Qsum (l : list Q) : Q := fold_right Qplus 0%Q l.

(** The world after one reading of the clock. *)
Definition tick (w : World) : World :=
  {| relogio := relogio w; leituras := S (leituras w); db := db w |}.

(** Least and greatest element of a list. *)
Definition least (m : Z) (l : list Z) : Prop := In m l /\ Forall (Z.le m) l.
Definition greatest (m : Z) (l : list Z) : Prop :=
  In m l /\ Forall (fun x => x <= m) l.

(** The record [calcular_metricas_churn] returns and the world it leaves,
    in terms of the vocabulary above. *)
Definition metricas_de (a : Aluno) (w : World) : Metricas.t :=
  {| Metricas.frequencia_semanal :=
       match historico a w with
       | [] => 0%Q
       | evs =>
           (inject_Z (Z.of_nat (List.length evs)) /
            inject_Z (Z.max 1
              (days (sub (agora w) (earliest 0%Z (entradas evs))) / 7)))%Q
       end;
     Metricas.tempo_ultimo_checkin :=
       match historico a w with
       | [] => days (sub (agora w) (data_matricula a))
       | evs => days (sub (agora w) (latest 0 (entradas evs)))
       end;
     Metricas.duracao_media :=
       match filter has_exit (historico a w) with
       | [] => 0%Q
       | done =>
           (py_sum (map visit_minutes done) /
            inject_Z (Z.of_nat (List.length done)))%Q
       end;
     Metricas.plano_id := plano_id a;
     Metricas.churn :=
       match data_cancelamento a with Some _ => 1 | None => 0 end |}.

(** No stored event has an exit timestamp. *)
Definition sem_saida (w : World) : Prop :=
  Forall (fun c => data_hora_saida c = None) (checkins (db w)).

(** ** Concrete members, visits and worlds *)

Module Scenarios.

Definition dia : Z := us_per_day.
Definition minuto : Z := 60 * us_per_second.

Definition membro (ativa : bool) (canc : option date) : Aluno :=
  {| matricula := 1; nome := "Ana"; data_nascimento := 0; genero := "F";
     email := "ana@example.org"; plano_id := 2; data_matricula := 0;
     matricula_ativa := ativa; data_cancelamento := canc |}.

Definition visita (entrada : datetime) (saida : option datetime) : Checkin :=
  {| aluno_id := 1; data_hora_entrada := entrada; data_hora_saida := saida |}.

Definition mundo (now : datetime) (a : Aluno) (evs : list Checkin) : World :=
  {| relogio := fun _ => now; leituras := 0;
     db := {| alunos := [a]; checkins := evs |} |}.

(** The clock reads 0; the only visit was entered a day later and left
    half an hour before it was entered. *)
Definition visita_futura : Checkin :=
  visita dia (Some (dia - 30 * minuto)).

Definition mundo_futuro : World :=
  mundo 0 (membro true None) [visita_futura].

(** A store filled through the interface: one member registered, one
    check-in.  The clock advances a day at every reading; every date
    string parses to day 0; the classifier answers with the first
    feature. *)
Definition strptime_dia0 (s : string) : option date := Some 0.

Definition classificador (X : list (list Q)) : list (list Q) :=
  map (fun row => [1 - hd 0 row; hd 0 row]%Q) X.

Definition pedido_ana : AlunoCreate.t :=
  {| AlunoCreate.nome := "Ana";
     AlunoCreate.data_nascimento := "1990-01-01";
     AlunoCreate.genero := "F";
     AlunoCreate.email := "ana@example.org";
     AlunoCreate.plano_id := 2;
     AlunoCreate.data_matricula := "1990-01-01";
     AlunoCreate.matricula_ativa := true;
     AlunoCreate.data_cancelamento := None |}.

Definition mundo_inicial : World :=
  {| relogio := fun n => Z.of_nat n * dia; leituras := 0;
     db := {| alunos := []; checkins := [] |} |}.

Definition mundo_visitado : World :=
  snd (handle strptime_dia0 classificador
         (POST_checkins {| CheckinCreate.aluno_id := 1 |})
         (snd (handle strptime_dia0 classificador
                 (POST_alunos pedido_ana) mundo_inicial))).

End Scenarios.

(** ** Running the monad *)

Lemma bind_inr {A B} (c : M A) (k : A -> M B) w x w' :
  c w = (inr x, w') -> bind c k w = k x w'.
Proof. intros H. unfold bind. rewrite H. reflexivity. Qed.

Lemma utcnow_run w : utcnow w = (inr (agora w), tick w).
Proof. reflexivity. Qed.

(** ** Sorting *)

Lemma insert_sorted_perm x l : Permutation (x :: l) (insert_sorted x l).
Proof.
  induction l as [|y r IH]; simpl.
  - apply Permutation_refl.
  - destruct (x <=? y).
    + apply Permutation_refl.
    + eapply perm_trans; [apply perm_swap|].
      apply perm_skip, IH.
Qed.

Lemma list_sort_perm l : Permutation l (list_sort l).
Proof.
  induction l as [|x r IH]; simpl.
  - constructor.
  - eapply perm_trans; [apply perm_skip, IH|].
    apply insert_sorted_perm.
Qed.

Lemma insert_sorted_hdrel a x l :
  a <= x -> HdRel Z.le a l -> HdRel Z.le a (insert_sorted x l).
Proof.
  intros Hax H. destruct l as [|y r]; simpl.
  - constructor; assumption.
  - inversion H; subst. destruct (x <=? y); constructor; assumption.
Qed.

Lemma insert_sorted_sorted x l :
  Sorted Z.le l -> Sorted Z.le (insert_sorted x l).
Proof.
  induction 1 as [|y r Hs IH Hd]; simpl.
  - repeat constructor.
  - destruct (Z.leb_spec x y) as [Hxy|Hxy].
    + constructor; [constructor; assumption|].
      constructor; assumption.
    + constructor; [exact IH|].
      apply insert_sorted_hdrel; [lia | assumption].
Qed.

Lemma list_sort_sorted l : StronglySorted Z.le (list_sort l).
Proof.
  apply Sorted_StronglySorted.
  - intros x y z; apply Z.le_trans.
  - induction l as [|x r IH]; simpl.
    + constructor.
    + apply insert_sorted_sorted, IH.
Qed.

Lemma list_sort_length l : List.length (list_sort l) = List.length l.
Proof. symmetry. apply Permutation_length, list_sort_perm. Qed.

Lemma least_unique m m' l : least m l -> least m' l -> m = m'.
Proof.
  intros [Hi Hf] [Hi' Hf'].
  rewrite Forall_forall in Hf, Hf'.
  apply Z.le_antisymm; auto.
Qed.

Lemma greatest_unique m m' l : greatest m l -> greatest m' l -> m = m'.
Proof.
  intros [Hi Hf] [Hi' Hf'].
  rewrite Forall_forall in Hf, Hf'.
  apply Z.le_antisymm; auto.
Qed.

Lemma least_perm m l l' : Permutation l l' -> least m l -> least m l'.
Proof.
  intros P [Hi Hf]. split.
  - eapply Permutation_in; eassumption.
  - eapply Permutation_Forall; eassumption.
Qed.

Lemma greatest_perm m l l' : Permutation l l' -> greatest m l -> greatest m l'.
Proof.
  intros P [Hi Hf]. split.
  - eapply Permutation_in; eassumption.
  - eapply Permutation_Forall; eassumption.
Qed.

Lemma fold_min_least x r : least (fold_right Z.min x r) (r ++ [x]).
Proof.
  induction r as [|y r [Hi Hf]]; simpl.
  - split; [left; reflexivity | repeat constructor; lia].
  - split.
    + destruct (Z.min_spec y (fold_right Z.min x r)) as [[_ E]|[_ E]];
        rewrite E; [left; reflexivity | right; exact Hi].
    + constructor; [apply Z.le_min_l|].
      eapply Forall_impl; [|exact Hf].
      intros z Hz. simpl in Hz. lia.
Qed.

Lemma fold_max_greatest x r : greatest (fold_right Z.max x r) (r ++ [x]).
Proof.
  induction r as [|y r [Hi Hf]]; simpl.
  - split; [left; reflexivity | repeat constructor; lia].
  - split.
    + destruct (Z.max_spec y (fold_right Z.max x r)) as [[_ E]|[_ E]];
        rewrite E; [right; exact Hi | left; reflexivity].
    + constructor; [apply Z.le_max_l|].
      eapply Forall_impl; [|exact Hf].
      intros z Hz. simpl in Hz. lia.
Qed.

Lemma earliest_least d x r : least (earliest d (x :: r)) (x :: r).
Proof.
  simpl. eapply least_perm; [|apply fold_min_least].
  apply Permutation_sym, Permutation_cons_append.
Qed.

Lemma latest_greatest d x r : greatest (latest d (x :: r)) (x :: r).
Proof.
  simpl. eapply greatest_perm; [|apply fold_max_greatest].
  apply Permutation_sym, Permutation_cons_append.
Qed.

Lemma sorted_hd_least d l :
  l <> [] -> StronglySorted Z.le l -> least (hd d l) l.
Proof.
  intros Hne Hs. destruct l as [|x r]; [congruence|].
  inversion Hs; subst. split; simpl.
  - left; reflexivity.
  - constructor; [lia | assumption].
Qed.

Lemma sorted_last_greatest d l :
  l <> [] -> StronglySorted Z.le l -> greatest (last l d) l.
Proof.
  intros Hne Hs. induction Hs as [|x r Hs IH Hf]; [congruence|].
  destruct r as [|y r'].
  - simpl. split; [left; reflexivity | repeat constructor; lia].
  - assert (Hne' : y :: r' <> []) by discriminate.
    destruct (IH Hne') as [Hi Hg].
    change (last (x :: y :: r') d) with (last (y :: r') d).
    split.
    + right; exact Hi.
    + constructor; [|exact Hg].
      rewrite Forall_forall in Hf. apply Hf, Hi.
Qed.

(** [datas_checkins[0]] and [datas_checkins[-1]] after the sort. *)
Lemma primeira_data_earliest x r :
  hd 0 (list_sort (x :: r)) = earliest 0 (x :: r).
Proof.
  apply (least_unique _ _ (x :: r)); [|apply earliest_least].
  apply (least_perm _ (list_sort (x :: r))).
  - apply Permutation_sym, list_sort_perm.
  - apply sorted_hd_least; [|apply list_sort_sorted].
    intros E. apply (f_equal (@List.length Z)) in E.
    rewrite list_sort_length in E. discriminate.
Qed.

Lemma ultima_data_latest x r :
  last (list_sort (x :: r)) 0 = latest 0 (x :: r).
Proof.
  apply (greatest_unique _ _ (x :: r)); [|apply latest_greatest].
  apply (greatest_perm _ (list_sort (x :: r))).
  - apply Permutation_sym, list_sort_perm.
  - apply sorted_last_greatest; [|apply list_sort_sorted].
    intros E. apply (f_equal (@List.length Z)) in E.
    rewrite list_sort_length in E. discriminate.
Qed.

(** ** The metrics, field by field *)

Lemma duracoes_de_filter cs :
  duracoes_de cs = map visit_minutes (filter has_exit cs).
Proof.
  induction cs as [|c r IH]; simpl; [reflexivity|].
  unfold has_exit, visit_minutes in *.
  destruct (data_hora_saida c) as [saida|] eqn:E; simpl;
    rewrite ?E, IH; reflexivity.
Qed.

Lemma fold_left_Qplus l a : (fold_left Qplus l a == a + Qsum l)%Q.
Proof.
  revert a. induction l as [|x r IH]; intros a; simpl.
  - ring.
  - rewrite IH. ring.
Qed.

Lemma py_sum_Qsum l : (py_sum l == Qsum l)%Q.
Proof. unfold py_sum. rewrite fold_left_Qplus. ring. Qed.

Lemma Qsum_nonneg l : Forall (fun q => 0 <= q)%Q l -> (0 <= Qsum l)%Q.
Proof.
  induction 1 as [|x r Hx _ IH]; simpl.
  - apply Qle_refl.
  - replace 0%Q with (0 + 0)%Q by reflexivity.
    apply Qplus_le_compat; assumption.
Qed.

Lemma Qdiv_nonneg a b : (0 <= a)%Q -> (0 < b)%Q -> (0 <= a / b)%Q.
Proof.
  intros Ha Hb. apply Qle_shift_div_l; [exact Hb|].
  setoid_replace (0 * b)%Q with 0%Q by ring. exact Ha.
Qed.

Lemma inject_Z_nonneg z : 0 <= z -> (0 <= inject_Z z)%Q.
Proof. intros H. change 0%Q with (inject_Z 0). rewrite <- Zle_Qle. exact H. Qed.

Lemma inject_Z_pos z : 0 < z -> (0 < inject_Z z)%Q.
Proof. intros H. change 0%Q with (inject_Z 0). rewrite <- Zlt_Qlt. exact H. Qed.

Lemma days_nonneg td : 0 <= td -> 0 <= days td.
Proof. intros H. unfold days. apply Z.div_pos; [exact H | reflexivity]. Qed.

Lemma days_neg td : td < 0 -> days td < 0.
Proof.
  intros H. unfold days.
  apply Z.div_lt_upper_bound; [reflexivity | lia].
Qed.

Lemma calcular_metricas_churn_run a w :
  calcular_metricas_churn a w = (inr (metricas_de a w), tick w).
Proof.
  unfold calcular_metricas_churn.
  rewrite (bind_inr _ _ _ _ _ (utcnow_run w)).
  unfold query_checkins_all, bind, ret, metricas_de.
  change (filter (fun c => aluno_id c =? matricula a) (checkins (db (tick w))))
    with (historico a w).
  destruct (historico a w) as [|c r] eqn:E.
  - reflexivity.
  - rewrite duracoes_de_filter.
    change (map data_hora_entrada (c :: r))
      with (data_hora_entrada c :: map data_hora_entrada r).
    rewrite primeira_data_earliest, ultima_data_latest.
    unfold entradas.
    change (map data_hora_entrada (c :: r))
      with (data_hora_entrada c :: map data_hora_entrada r).
    destruct (filter has_exit (c :: r)) as [|c0 l]; [reflexivity|].
    rewrite length_map. reflexivity.
Qed.

Lemma calcular_metricas_churn_returns a w :
  fst (calcular_metricas_churn a w) = inr (metricas_de a w).
Proof. rewrite calcular_metricas_churn_run. reflexivity. Qed.

(** ** Weekly frequency *)

(** C1: for a non-empty event history the weekly frequency is
    [count(events) / max(1, floor((now - earliest_entry).days / 7))], where
    [earliest_entry] is the smallest entry timestamp of the history, and the
    denominator is at least 1, hence never zero. *)
Theorem weekly_frequency_formula (a : Aluno) (w : World) :
  historico a w <> [] ->
  exists m,
    fst (calcular_metricas_churn a w) = inr m /\
    let evs := historico a w in
    let earliest_entry := earliest 0 (entradas evs) in
    let span_weeks := Z.max 1 (days (sub (agora w) earliest_entry) / 7) in
    In earliest_entry (entradas evs) /\
    Forall (fun t => earliest_entry <= t) (entradas evs) /\
    1 <= span_weeks /\
    Metricas.frequencia_semanal m =
      (inject_Z (Z.of_nat (List.length evs)) / inject_Z span_weeks)%Q.
Proof.
  intros Hne. exists (metricas_de a w).
  split; [apply calcular_metricas_churn_returns|].
  unfold metricas_de; simpl.
  destruct (historico a w) as [|c r]; [congruence|].
  destruct (earliest_least 0 (data_hora_entrada c) (entradas r)) as [Hi Hf].
  repeat split.
  - exact Hi.
  - exact Hf.
  - apply Z.le_max_l.
Qed.

Lemma weekly_frequency_formula_witness :
  historico (Scenarios.membro true None)
    (Scenarios.mundo (14 * Scenarios.dia) (Scenarios.membro true None)
       [Scenarios.visita (7 * Scenarios.dia) None;
        Scenarios.visita 0 None;
        Scenarios.visita (14 * Scenarios.dia) None]) <> [] /\
  exists m,
    fst (calcular_metricas_churn (Scenarios.membro true None)
           (Scenarios.mundo (14 * Scenarios.dia) (Scenarios.membro true None)
              [Scenarios.visita (7 * Scenarios.dia) None;
               Scenarios.visita 0 None;
               Scenarios.visita (14 * Scenarios.dia) None])) = inr m /\
    (Metricas.frequencia_semanal m == 3 # 2)%Q.
Proof.
  split; [discriminate|].
  destruct (weekly_frequency_formula (Scenarios.membro true None)
              (Scenarios.mundo (14 * Scenarios.dia)
                 (Scenarios.membro true None)
                 [Scenarios.visita (7 * Scenarios.dia) None;
                  Scenarios.visita 0 None;
                  Scenarios.visita (14 * Scenarios.dia) None]))
    as [m [E [_ [_ [_ F]]]]]; [discriminate|].
  exists m. split; [exact E|]. rewrite F. reflexivity.
Defined.

(** ** Empty history *)

(** C2: a member without events gets weekly frequency 0, average duration
    0, and [(now - enrollment_start).days] as the days since the last
    check-in. *)
Theorem empty_history_metrics (a : Aluno) (w : World) :
  historico a w = [] ->
  exists m,
    fst (calcular_metricas_churn a w) = inr m /\
    Metricas.frequencia_semanal m = 0%Q /\
    Metricas.duracao_media m = 0%Q /\
    Metricas.tempo_ultimo_checkin m =
      days (sub (agora w) (data_matricula a)).
Proof.
  intros He. exists (metricas_de a w).
  split; [apply calcular_metricas_churn_returns|].
  unfold metricas_de; simpl. rewrite He. simpl. repeat split.
Qed.

Lemma empty_history_metrics_witness :
  historico (Scenarios.membro true None)
    (Scenarios.mundo (30 * Scenarios.dia)
       (Scenarios.membro true None) []) = [] /\
  exists m,
    fst (calcular_metricas_churn (Scenarios.membro true None)
           (Scenarios.mundo (30 * Scenarios.dia)
              (Scenarios.membro true None) [])) = inr m /\
    Metricas.tempo_ultimo_checkin m = 30.
Proof.
  split; [reflexivity|].
  destruct (empty_history_metrics (Scenarios.membro true None)
              (Scenarios.mundo (30 * Scenarios.dia)
                 (Scenarios.membro true None) []))
    as [m [E [_ [_ T]]]]; [reflexivity|].
  exists m. split; [exact E|]. rewrite T. reflexivity.
Defined.

(** ** Average duration *)

(** C3: the average duration is the mean, over exactly the events with an
    exit timestamp, of (exit - entry) in seconds over 60; it is 0 when no
    event has an exit timestamp; and it is fixed by the events that have
    one, so that events without exit enter neither the sum nor the
    count. *)
Theorem average_duration_over_exits (a : Aluno) (w : World) :
  exists m,
    fst (calcular_metricas_churn a w) = inr m /\
    let done := filter has_exit (historico a w) in
    (done = [] -> Metricas.duracao_media m = 0%Q) /\
    (done <> [] ->
       (Metricas.duracao_media m ==
        Qsum (map visit_minutes done) /
        inject_Z (Z.of_nat (List.length done)))%Q) /\
    (forall w' m',
       filter has_exit (historico a w') = done ->
       fst (calcular_metricas_churn a w') = inr m' ->
       Metricas.duracao_media m' = Metricas.duracao_media m).
Proof.
  exists (metricas_de a w).
  split; [apply calcular_metricas_churn_returns|].
  unfold metricas_de; simpl. repeat split.
  - intros E. rewrite E. reflexivity.
  - intros Hne. destruct (filter has_exit (historico a w)) as [|c r];
      [congruence|].
    rewrite py_sum_Qsum. reflexivity.
  - intros w' m' E R. rewrite calcular_metricas_churn_returns in R.
    injection R as <-. unfold metricas_de; simpl. rewrite E. reflexivity.
Qed.

Lemma average_duration_over_exits_witness :
  exists m,
    fst (calcular_metricas_churn (Scenarios.membro true None)
           (Scenarios.mundo Scenarios.dia (Scenarios.membro true None)
              [Scenarios.visita 0 None;
               Scenarios.visita (600 * Scenarios.minuto)
                 (Some (645 * Scenarios.minuto))])) = inr m /\
    (Metricas.duracao_media m == 45)%Q.
Proof.
  destruct (average_duration_over_exits (Scenarios.membro true None)
              (Scenarios.mundo Scenarios.dia (Scenarios.membro true None)
                 [Scenarios.visita 0 None;
                  Scenarios.visita (600 * Scenarios.minuto)
                    (Some (645 * Scenarios.minuto))]))
    as [m [E [_ [D _]]]].
  exists m. split; [exact E|]. rewrite D; [reflexivity | discriminate].
Defined.

(** ** Churn label *)

(** C4: the churn label is 1 exactly when the member has a cancellation
    date; two members with the same cancellation date get the same label
    whatever their active flag and their history. *)
Theorem churn_label_iff_cancelled (a : Aluno) (w : World) :
  exists m,
    fst (calcular_metricas_churn a w) = inr m /\
    (Metricas.churn m = 1 <-> data_cancelamento a <> None) /\
    (forall a' w' m',
       data_cancelamento a' = data_cancelamento a ->
       fst (calcular_metricas_churn a' w') = inr m' ->
       Metricas.churn m' = Metricas.churn m).
Proof.
  exists (metricas_de a w).
  split; [apply calcular_metricas_churn_returns|].
  unfold metricas_de; simpl. split.
  - destruct (data_cancelamento a); split; try congruence; discriminate.
  - intros a' w' m' E R. rewrite calcular_metricas_churn_returns in R.
    injection R as <-. simpl. rewrite E. reflexivity.
Qed.

Lemma churn_label_iff_cancelled_witness :
  exists m,
    fst (calcular_metricas_churn (Scenarios.membro true (Some 3))
           (Scenarios.mundo Scenarios.dia
              (Scenarios.membro true (Some 3)) [])) = inr m /\
    Metricas.churn m = 1.
Proof.
  destruct (churn_label_iff_cancelled (Scenarios.membro true (Some 3))
              (Scenarios.mundo Scenarios.dia
                 (Scenarios.membro true (Some 3)) []))
    as [m [E [[_ C] _]]].
  exists m. split; [exact E|]. apply C. discriminate.
Defined.

(** ** The enrolment gate of the check-in *)

Lemma create_checkin_run c w a :
  find (fun a => matricula a =? CheckinCreate.aluno_id c) (alunos (db w))
    = Some a ->
  create_checkin c w =
  if negb (matricula_ativa a) &&
     match data_cancelamento a with
     | None => true
     | Some cancelamento => date_of (agora w) >? cancelamento
     end
  then (inl (HTTPException 400 "Matrícula inativa. Check-in não permitido."),
        tick w)
  else add_checkin {| aluno_id := CheckinCreate.aluno_id c;
                      data_hora_entrada := agora (tick w);
                      data_hora_saida := None |} (tick (tick w)).
Proof.
  intros Hf.
  unfold create_checkin, bind, query_alunos_first, utcnow, raise, ret.
  simpl. rewrite Hf. unfold agora. simpl.
  destruct (matricula_ativa a); simpl; [reflexivity|].
  destruct (data_cancelamento a) as [d|]; [|reflexivity].
  destruct (date_of (relogio w (leituras w)) >? d); reflexivity.
Qed.

(** C5: for a member found in the store, the check-in is rejected with the
    inactive-enrolment error exactly when the active flag is false and the
    member has no cancellation date or the current date is strictly after
    it; otherwise the check-in is recorded.  An inactive member without a
    cancellation date is always rejected, an active member never. *)
Theorem checkin_rejected_iff_inactive
    (c : CheckinCreate.t) (w : World) (a : Aluno) :
  find (fun a => matricula a =? CheckinCreate.aluno_id c) (alunos (db w))
    = Some a ->
  let rejected :=
    fst (create_checkin c w) =
    inl (HTTPException 400 "Matrícula inativa. Check-in não permitido.") in
  (rejected <->
     matricula_ativa a = false /\
     (data_cancelamento a = None \/
      exists d, data_cancelamento a = Some d /\ d < date_of (agora w))) /\
  (~ rejected -> exists ck, fst (create_checkin c w) = inr ck) /\
  (matricula_ativa a = false -> data_cancelamento a = None -> rejected) /\
  (matricula_ativa a = true -> ~ rejected).
Proof.
  intros Hf. cbv zeta. rewrite (create_checkin_run c w a Hf).
  destruct (matricula_ativa a); simpl.
  - repeat split; try discriminate.
    + intros [H _]; discriminate.
    + intros _. eexists; reflexivity.
  - destruct (data_cancelamento a) as [d|]; simpl.
    + destruct (Z.ltb_spec d (date_of (agora w))) as [Hlt|Hge];
        rewrite Z.gtb_ltb;
        [apply Z.ltb_lt in Hlt | apply Z.ltb_ge in Hge];
        rewrite ?Hlt, ?Hge; simpl.
      * repeat split; try discriminate; try congruence.
        right. exists d. split; [reflexivity | apply Z.ltb_lt; exact Hlt].
      * apply Z.ltb_ge in Hge.
        repeat split; try discriminate; try congruence.
        -- intros [_ [H|[d' [E Hlt]]]]; [discriminate|].
           injection E as <-. lia.
        -- intros _. eexists; reflexivity.
    + repeat split; try discriminate; try congruence;
        try (left; reflexivity).
Qed.

Lemma checkin_rejected_iff_inactive_witness :
  find (fun a => matricula a =? 1)
       (alunos (db (Scenarios.mundo (10 * Scenarios.dia + 5)
                      (Scenarios.membro false (Some 9)) [])))
    = Some (Scenarios.membro false (Some 9)) /\
  fst (create_checkin {| CheckinCreate.aluno_id := 1 |}
         (Scenarios.mundo (10 * Scenarios.dia + 5)
            (Scenarios.membro false (Some 9)) [])) =
  inl (HTTPException 400 "Matrícula inativa. Check-in não permitido.").
Proof.
  split; [reflexivity|].
  destruct (checkin_rejected_iff_inactive {| CheckinCreate.aluno_id := 1 |}
              (Scenarios.mundo (10 * Scenarios.dia + 5)
                 (Scenarios.membro false (Some 9)) [])
              (Scenarios.membro false (Some 9)) eq_refl) as [[_ R] _].
  apply R. split; [reflexivity|].
  right. exists 9. split; reflexivity.
Defined.

(** ** Readings of the clock that precede an entry *)

Lemma latest_entradas_in d c r :
  exists c', In c' (c :: r) /\
             latest d (entradas (c :: r)) = data_hora_entrada c'.
Proof.
  destruct (latest_greatest d (data_hora_entrada c) (entradas r)) as [Hi _].
  change (data_hora_entrada c :: entradas r) with (entradas (c :: r)) in Hi.
  unfold entradas in Hi. apply in_map_iff in Hi.
  destruct Hi as [c' [E Hin]]. exists c'. split; [exact Hin|].
  symmetry; exact E.
Qed.

Lemma latest_entradas_ge d c r c' :
  In c' (c :: r) -> data_hora_entrada c' <= latest d (entradas (c :: r)).
Proof.
  intros Hin.
  destruct (latest_greatest d (data_hora_entrada c) (entradas r)) as [_ Hf].
  rewrite Forall_forall in Hf. apply Hf.
  change (data_hora_entrada c :: entradas r) with (entradas (c :: r)).
  unfold entradas. apply in_map. exact Hin.
Qed.

(** C6, on the input of the claim: the clock precedes the entry of the
    only event, and the function returns a record, with a negative day
    count, instead of raising. *)
Lemma no_invalid_input_error :
  In Scenarios.visita_futura
     (historico (Scenarios.membro true None) Scenarios.mundo_futuro) /\
  agora Scenarios.mundo_futuro < data_hora_entrada Scenarios.visita_futura /\
  exists m,
    fst (calcular_metricas_churn (Scenarios.membro true None)
           Scenarios.mundo_futuro) = inr m /\
    Metricas.tempo_ultimo_checkin m = -1.
Proof.
  split; [left; reflexivity|].
  split; [reflexivity|].
  eexists; split; reflexivity.
Qed.

(** C6, as the code has it: [calcular_metricas_churn] returns a record on
    every input and raises nothing; when the reading of the clock precedes
    the entry timestamp of some event, the days since the last check-in of
    that record are negative. *)
Theorem metrics_total_negative_days (a : Aluno) (w : World) :
  exists m,
    fst (calcular_metricas_churn a w) = inr m /\
    ((exists c, In c (historico a w) /\ agora w < data_hora_entrada c) ->
     Metricas.tempo_ultimo_checkin m < 0).
Proof.
  exists (metricas_de a w).
  split; [apply calcular_metricas_churn_returns|].
  intros [c [Hin Hlt]]. unfold metricas_de.
  cbn [Metricas.tempo_ultimo_checkin].
  destruct (historico a w) as [|c0 r]; [contradiction|].
  apply days_neg. unfold sub.
  pose proof (latest_entradas_ge 0 c0 r c Hin). lia.
Qed.

Lemma metrics_total_negative_days_witness :
  exists m,
    fst (calcular_metricas_churn (Scenarios.membro true None)
           Scenarios.mundo_futuro) = inr m /\
    Metricas.tempo_ultimo_checkin m < 0.
Proof.
  destruct (metrics_total_negative_days (Scenarios.membro true None)
              Scenarios.mundo_futuro) as [m [E N]].
  exists m. split; [exact E|]. apply N.
  exists Scenarios.visita_futura. split; [left; reflexivity | reflexivity].
Defined.

(** ** Dependence on the clock *)

(** C7, on two invocations with the same member and the same store, 30
    days apart on the clock: the records differ. *)
Lemma same_arguments_different_records :
  db (Scenarios.mundo 0 (Scenarios.membro true None) []) =
  db (Scenarios.mundo (30 * Scenarios.dia) (Scenarios.membro true None) []) /\
  fst (calcular_metricas_churn (Scenarios.membro true None)
         (Scenarios.mundo 0 (Scenarios.membro true None) [])) <>
  fst (calcular_metricas_churn (Scenarios.membro true None)
         (Scenarios.mundo (30 * Scenarios.dia)
            (Scenarios.membro true None) [])).
Proof.
  split; [reflexivity|]. discriminate.
Qed.

(** C7, as the code has it: [calcular_metricas_churn] reads the clock once
    and queries the store; its record is a function of that reading, of the
    rows of the member and of the member, and it leaves the store as it
    was. *)
Theorem metrics_determined_by_clock_and_rows (a : Aluno) (w1 w2 : World) :
  (agora w1 = agora w2 ->
   historico a w1 = historico a w2 ->
   fst (calcular_metricas_churn a w1) = fst (calcular_metricas_churn a w2)) /\
  db (snd (calcular_metricas_churn a w1)) = db w1 /\
  leituras (snd (calcular_metricas_churn a w1)) = S (leituras w1).
Proof.
  rewrite !calcular_metricas_churn_run. simpl. repeat split.
  intros Ha Hh. unfold metricas_de. rewrite Ha, Hh. reflexivity.
Qed.

Lemma metrics_determined_by_clock_and_rows_witness :
  fst (calcular_metricas_churn (Scenarios.membro true None)
         (Scenarios.mundo 0 (Scenarios.membro true None) [])) =
  fst (calcular_metricas_churn (Scenarios.membro true None)
         (Scenarios.mundo 0 (Scenarios.membro false (Some 4)) [])).
Proof.
  apply (metrics_determined_by_clock_and_rows (Scenarios.membro true None)
           (Scenarios.mundo 0 (Scenarios.membro true None) [])
           (Scenarios.mundo 0 (Scenarios.membro false (Some 4)) []));
    reflexivity.
Defined.

(** ** Ranges of the record *)

Lemma visit_minutes_nonneg c :
  (forall s, data_hora_saida c = Some s -> data_hora_entrada c <= s) ->
  (0 <= visit_minutes c)%Q.
Proof.
  intros H. unfold visit_minutes.
  destruct (data_hora_saida c) as [s|]; [|apply Qle_refl].
  specialize (H s eq_refl).
  apply Qdiv_nonneg; [|reflexivity].
  unfold total_seconds. apply Qdiv_nonneg; [|reflexivity].
  apply inject_Z_nonneg. unfold sub. lia.
Qed.

(** C8, on one input: the clock precedes the entry of the only visit and
    that visit was left before it was entered; both the days since the last
    check-in and the average duration are negative. *)
Lemma negative_days_and_duration :
  exists m,
    fst (calcular_metricas_churn (Scenarios.membro true None)
           Scenarios.mundo_futuro) = inr m /\
    Metricas.tempo_ultimo_checkin m < 0 /\
    (Metricas.duracao_media m < 0)%Q.
Proof.
  eexists; split; [reflexivity|]. split; reflexivity.
Qed.

(** C8, as the code has it: the weekly frequency is never negative, the
    plan identifier is the member's and the churn label is 0 or 1; the days
    since the last check-in are non-negative when no entry timestamp (the
    enrolment start, for an empty history) is after the reading of the
    clock, and the average duration is non-negative when no event was left
    before it was entered. *)
Theorem metrics_record_ranges (a : Aluno) (w : World) :
  exists m,
    fst (calcular_metricas_churn a w) = inr m /\
    (0 <= Metricas.frequencia_semanal m)%Q /\
    Metricas.plano_id m = plano_id a /\
    (Metricas.churn m = 0 \/ Metricas.churn m = 1) /\
    (Forall (fun c => data_hora_entrada c <= agora w) (historico a w) ->
     (historico a w = [] -> data_matricula a <= agora w) ->
     0 <= Metricas.tempo_ultimo_checkin m) /\
    (Forall (fun c => forall s, data_hora_saida c = Some s ->
                                data_hora_entrada c <= s) (historico a w) ->
     (0 <= Metricas.duracao_media m)%Q).
Proof.
  exists (metricas_de a w).
  split; [apply calcular_metricas_churn_returns|].
  unfold metricas_de.
  cbn [Metricas.frequencia_semanal Metricas.tempo_ultimo_checkin
       Metricas.duracao_media Metricas.plano_id Metricas.churn].
  split; [|split; [reflexivity|split; [|split]]].
  - destruct (historico a w) as [|c r]; [apply Qle_refl|].
    apply Qdiv_nonneg.
    + apply inject_Z_nonneg, Nat2Z.is_nonneg.
    + apply inject_Z_pos. lia.
  - destruct (data_cancelamento a); [right | left]; reflexivity.
  - intros Hf He. destruct (historico a w) as [|c r].
    + apply days_nonneg. unfold sub. specialize (He eq_refl). lia.
    + apply days_nonneg. unfold sub.
      destruct (latest_entradas_in 0 c r) as [c' [Hin E]]. rewrite E.
      rewrite Forall_forall in Hf. specialize (Hf c' Hin). lia.
  - intros Hf.
    assert (Hd : Forall (fun q => (0 <= q)%Q)
                   (map visit_minutes (filter has_exit (historico a w)))).
    { apply Forall_forall. intros q Hq. apply in_map_iff in Hq.
      destruct Hq as [c [<- Hc]]. apply filter_In in Hc.
      rewrite Forall_forall in Hf. apply visit_minutes_nonneg, Hf, Hc. }
    destruct (filter has_exit (historico a w)) as [|c r]; [apply Qle_refl|].
    apply Qdiv_nonneg.
    + rewrite py_sum_Qsum. apply Qsum_nonneg, Hd.
    + apply inject_Z_pos. simpl List.length. lia.
Qed.

Lemma metrics_record_ranges_witness :
  exists m,
    fst (calcular_metricas_churn (Scenarios.membro true None)
           (Scenarios.mundo Scenarios.dia (Scenarios.membro true None)
              [Scenarios.visita 0 (Some (45 * Scenarios.minuto))])) = inr m /\
    0 <= Metricas.tempo_ultimo_checkin m /\
    (0 <= Metricas.duracao_media m)%Q.
Proof.
  destruct (metrics_record_ranges (Scenarios.membro true None)
              (Scenarios.mundo Scenarios.dia (Scenarios.membro true None)
                 [Scenarios.visita 0 (Some (45 * Scenarios.minuto))]))
    as [m [E [_ [_ [_ [T D]]]]]].
  exists m. split; [exact E|]. split.
  - apply T.
    + repeat constructor. simpl. unfold agora; simpl. discriminate.
    + discriminate.
  - apply D. repeat constructor. simpl. intros s Hs.
    injection Hs as <-. discriminate.
Defined.

(** ** The feature vector handed to the classifier *)

(** C9: for a member found in the store, [predict_churn] computes the
    metrics, builds the one-row matrix
    [[frequencia_semanal, tempo_ultimo_checkin, duracao_media, plano_id]]
    in that order and without the churn entry, and hands exactly that
    matrix to the classifier; the answer is column 1 of the first row of
    what the classifier returns. *)
Theorem predict_churn_feature_vector
    (predict_proba : list (list Q) -> list (list Q))
    (id : Z) (w : World) (a : Aluno) :
  find (fun a => matricula a =? id) (alunos (db w)) = Some a ->
  exists m w',
    calcular_metricas_churn a w = (inr m, w') /\
    let X := [[ Metricas.frequencia_semanal m;
                inject_Z (Metricas.tempo_ultimo_checkin m);
                Metricas.duracao_media m;
                inject_Z (Metricas.plano_id m) ]] in
    predict_churn predict_proba id w =
      (churn_prob <- coluna 1 (predict_proba X) ;;
       p <- indice 0 churn_prob ;;
       ret {| ChurnResposta.aluno_id := id;
              ChurnResposta.probabilidade_churn := p |}) w' /\
    (forall p0 p1,
       predict_proba X = [[p0; p1]] ->
       fst (predict_churn predict_proba id w) =
       inr {| ChurnResposta.aluno_id := id;
              ChurnResposta.probabilidade_churn := p1 |}).
Proof.
  intros Hf. exists (metricas_de a w), (tick w).
  split; [apply calcular_metricas_churn_run|].
  assert (R : predict_churn predict_proba id w =
              (churn_prob <-
                 coluna 1 (predict_proba (vetor_X (metricas_de a w))) ;;
               p <- indice 0 churn_prob ;;
               ret {| ChurnResposta.aluno_id := id;
                      ChurnResposta.probabilidade_churn := p |}) (tick w)).
  { unfold predict_churn.
    rewrite (bind_inr _ _ w (Some a) w)
      by (unfold query_alunos_first; rewrite Hf; reflexivity).
    rewrite (bind_inr _ _ _ _ _ (calcular_metricas_churn_run a w)).
    reflexivity. }
  cbv zeta. split; [exact R|].
  intros p0 p1 E. rewrite R. unfold vetor_X. rewrite E. reflexivity.
Qed.

Lemma predict_churn_feature_vector_witness :
  fst (predict_churn
         (fun X => map (fun row => [1 - hd 0 row; hd 0 row]%Q) X) 1
         (Scenarios.mundo (14 * Scenarios.dia)
            (Scenarios.membro true None) [])) =
  inr {| ChurnResposta.aluno_id := 1;
         ChurnResposta.probabilidade_churn := 0 |}.
Proof.
  destruct (predict_churn_feature_vector
              (fun X => map (fun row => [1 - hd 0 row; hd 0 row]%Q) X) 1
              (Scenarios.mundo (14 * Scenarios.dia)
                 (Scenarios.membro true None) [])
              (Scenarios.membro true None) eq_refl)
    as [m [w' [E [R _]]]].
  rewrite R. injection E as <- <-. reflexivity.
Defined.

(** ** Exit timestamps through the interface *)

Lemma snd_bind_ret {A B} (c : M A) (f : A -> B) w :
  snd ((x <- c ;; ret (f x)) w) = snd (c w).
Proof. unfold bind, ret. destruct (c w) as [[e|x] w']; reflexivity. Qed.

Lemma coluna_world j rows w : snd (coluna j rows w) = w.
Proof.
  induction rows as [|row r IH]; simpl; [reflexivity|].
  destruct (nth_error row j); [|reflexivity].
  rewrite snd_bind_ret. exact IH.
Qed.

Lemma indice_world i xs w : snd (indice i xs w) = w.
Proof. unfold indice. destruct (nth_error xs i); reflexivity. Qed.

Lemma create_checkin_created c w ck w' :
  create_checkin c w = (inr ck, w') ->
  aluno_id ck = CheckinCreate.aluno_id c /\
  data_hora_entrada ck = relogio w (S (leituras w)) /\
  data_hora_saida ck = None /\
  checkins (db w') = (checkins (db w) ++ [ck])%list /\
  alunos (db w') = alunos (db w).
Proof.
  destruct (find (fun a => matricula a =? CheckinCreate.aluno_id c)
              (alunos (db w))) as [a|] eqn:Hf.
  - rewrite (create_checkin_run c w a Hf).
    destruct (negb (matricula_ativa a) && _); [discriminate|].
    unfold add_checkin. intros E. injection E as <- <-.
    repeat split.
  - unfold create_checkin, bind, query_alunos_first. rewrite Hf.
    discriminate.
Qed.

Lemma create_checkin_rejected c w e w' :
  create_checkin c w = (inl e, w') -> db w' = db w.
Proof.
  destruct (find (fun a => matricula a =? CheckinCreate.aluno_id c)
              (alunos (db w))) as [a|] eqn:Hf.
  - rewrite (create_checkin_run c w a Hf).
    destruct (negb (matricula_ativa a) && _); [|discriminate].
    intros E. injection E as _ <-. reflexivity.
  - unfold create_checkin, bind, query_alunos_first. rewrite Hf.
    unfold raise. intros E. injection E as _ <-. reflexivity.
Qed.

Lemma create_checkin_sem_saida c w :
  sem_saida w -> sem_saida (snd (create_checkin c w)).
Proof.
  intros H. destruct (create_checkin c w) as [[e|ck] w'] eqn:E; simpl.
  - unfold sem_saida. rewrite (create_checkin_rejected _ _ _ _ E). exact H.
  - destruct (create_checkin_created _ _ _ _ E) as [_ [_ [Hs [Hc _]]]].
    unfold sem_saida. rewrite Hc. apply Forall_app. split; [exact H|].
    constructor; [exact Hs | constructor].
Qed.

Section Interface.

Variable strptime_date : string -> option date.
Variable predict_proba : list (list Q) -> list (list Q).

Lemma parse_date_world s w : snd (parse_date strptime_date s w) = w.
Proof. unfold parse_date. destruct (strptime_date s); reflexivity. Qed.

Lemma create_aluno_checkins al w :
  checkins (db (snd (create_aluno strptime_date al w))) = checkins (db w).
Proof.
  unfold create_aluno, bind, query_alunos_first, parse_date, add_aluno,
    ret, raise.
  destruct (find _ (alunos (db w))); [reflexivity|].
  destruct (strptime_date (AlunoCreate.data_nascimento al));
    [|reflexivity].
  destruct (strptime_date (AlunoCreate.data_matricula al));
    [|reflexivity].
  destruct (AlunoCreate.data_cancelamento al) as [[|ch s]|];
    try reflexivity.
  destruct (strptime_date (String ch s)); reflexivity.
Qed.

Lemma predict_churn_checkins id w :
  checkins (db (snd (predict_churn predict_proba id w))) = checkins (db w).
Proof.
  unfold predict_churn.
  destruct (find (fun a => matricula a =? id) (alunos (db w)))
    as [a|] eqn:Hf.
  - rewrite (bind_inr _ _ w (Some a) w)
      by (unfold query_alunos_first; rewrite Hf; reflexivity).
    rewrite (bind_inr _ _ _ _ _ (calcular_metricas_churn_run a w)).
    set (X := vetor_X (metricas_de a w)).
    unfold bind.
    pose proof (coluna_world 1 (predict_proba X) (tick w)) as Hc.
    destruct (coluna 1 (predict_proba X) (tick w)) as [[e|cp] w1].
    + simpl in *. subst w1. reflexivity.
    + simpl in Hc. subst w1.
      pose proof (indice_world 0 cp (tick w)) as Hi.
      destruct (indice 0 cp (tick w)) as [[e|p] w2];
        simpl in *; subst w2; reflexivity.
  - rewrite (bind_inr _ _ w None w)
      by (unfold query_alunos_first; rewrite Hf; reflexivity).
    reflexivity.
Qed.

Lemma handle_sem_saida req w :
  sem_saida w -> sem_saida (snd (handle strptime_date predict_proba req w)).
Proof.
  intros H. destruct req; unfold handle; rewrite snd_bind_ret.
  - unfold sem_saida. rewrite create_aluno_checkins. exact H.
  - exact H.
  - apply create_checkin_sem_saida, H.
  - exact H.
  - unfold list_checkins_by_aluno, bind, query_checkins_all.
    destruct (filter _ (checkins (db w))); exact H.
  - unfold sem_saida. rewrite predict_churn_checkins. exact H.
Qed.

Lemma reachable_sem_saida w :
  reachable strptime_date predict_proba w -> sem_saida w.
Proof.
  induction 1 as [rel n|w req _ IH].
  - constructor.
  - apply handle_sem_saida, IH.
Qed.

End Interface.

Lemma sem_saida_no_exit a w :
  sem_saida w -> filter has_exit (historico a w) = [].
Proof.
  unfold sem_saida, historico. intros H.
  induction H as [|c r Hc _ IH]; simpl; [reflexivity|].
  destruct (aluno_id c =? matricula a); simpl; [|exact IH].
  unfold has_exit at 1. rewrite Hc. exact IH.
Qed.

(** C10: a check-in created by [create_checkin] carries the reading of the
    clock taken at its creation as entry timestamp and no exit timestamp,
    and is the one row added; in every world the interface reaches from an
    empty store no event has an exit timestamp, so that the average
    duration of every member is 0. *)
Theorem exit_never_set_through_interface
    (strptime_date : string -> option date)
    (predict_proba : list (list Q) -> list (list Q)) :
  (forall c w ck w',
     create_checkin c w = (inr ck, w') ->
     data_hora_entrada ck = relogio w (S (leituras w)) /\
     data_hora_saida ck = None /\
     checkins (db w') = (checkins (db w) ++ [ck])%list) /\
  (forall w,
     reachable strptime_date predict_proba w ->
     Forall (fun c => data_hora_saida c = None) (checkins (db w)) /\
     forall a, exists m,
       fst (calcular_metricas_churn a w) = inr m /\
       Metricas.duracao_media m = 0%Q).
Proof.
  split.
  - intros c w ck w' E.
    destruct (create_checkin_created _ _ _ _ E) as [_ [He [Hs [Hc _]]]].
    repeat split; assumption.
  - intros w Hr.
    pose proof (reachable_sem_saida _ _ _ Hr) as Hs.
    split; [exact Hs|].
    intros a. exists (metricas_de a w).
    split; [apply calcular_metricas_churn_returns|].
    unfold metricas_de; cbn [Metricas.duracao_media].
    rewrite (sem_saida_no_exit a w Hs). reflexivity.
Qed.

Lemma exit_never_set_through_interface_witness :
  reachable Scenarios.strptime_dia0 Scenarios.classificador
    Scenarios.mundo_visitado /\
  checkins (db Scenarios.mundo_visitado) =
    [Scenarios.visita Scenarios.dia None] /\
  exists m,
    fst (calcular_metricas_churn (Scenarios.membro true None)
           Scenarios.mundo_visitado) = inr m /\
    Metricas.duracao_media m = 0%Q.
Proof.
  assert (R : reachable Scenarios.strptime_dia0 Scenarios.classificador
                Scenarios.mundo_visitado).
  { unfold Scenarios.mundo_visitado. apply reach_step, reach_step.
    apply reach_init. }
  split; [exact R|]. split; [reflexivity|].
  destruct (exit_never_set_through_interface Scenarios.strptime_dia0
              Scenarios.classificador) as [_ H].
  destruct (H Scenarios.mundo_visitado R) as [_ Hm].
  exact (Hm (Scenarios.membro true None)).
Defined.

(** ** Worked scenarios *)

(** Enrolled 30 days ago, no check-ins. *)
Example scenario_A :
  fst (calcular_metricas_churn (Scenarios.membro true None)
         (Scenarios.mundo (30 * Scenarios.dia)
            (Scenarios.membro true None) [])) =
  inr {| Metricas.frequencia_semanal := 0%Q;
         Metricas.tempo_ultimo_checkin := 30;
         Metricas.duracao_media := 0%Q;
         Metricas.plano_id := 2;
         Metricas.churn := 0 |}.
Proof. reflexivity. Qed.

(** Check-ins at day 0, 7 and 14, read at day 14: two weeks, 3/2 a week. *)
Example scenario_B :
  exists m,
    fst (calcular_metricas_churn (Scenarios.membro true None)
           (Scenarios.mundo (14 * Scenarios.dia) (Scenarios.membro true None)
              [Scenarios.visita (7 * Scenarios.dia) None;
               Scenarios.visita 0 None;
               Scenarios.visita (14 * Scenarios.dia) None])) = inr m /\
    (Metricas.frequencia_semanal m == 3 # 2)%Q /\
    Metricas.tempo_ultimo_checkin m = 0 /\
    Metricas.duracao_media m = 0%Q.
Proof. eexists; split; [reflexivity|]. repeat split. Qed.

(** One visit of 45 minutes. *)
Example scenario_C :
  exists m,
    fst (calcular_metricas_churn (Scenarios.membro true None)
           (Scenarios.mundo Scenarios.dia (Scenarios.membro true None)
              [Scenarios.visita (600 * Scenarios.minuto)
                 (Some (645 * Scenarios.minuto))])) = inr m /\
    (Metricas.duracao_media m == 45)%Q.
Proof. eexists; split; [reflexivity|]. reflexivity. Qed.

(** Inactive, cancelled yesterday (day 9), check-in on day 10. *)
Example scenario_D :
  fst (create_checkin {| CheckinCreate.aluno_id := 1 |}
         (Scenarios.mundo (10 * Scenarios.dia + 5)
            (Scenarios.membro false (Some 9)) [])) =
  inl (HTTPException 400 "Matrícula inativa. Check-in não permitido.").
Proof. reflexivity. Qed.

(** Inactive without a cancellation date. *)
Example scenario_E :
  fst (create_checkin {| CheckinCreate.aluno_id := 1 |}
         (Scenarios.mundo (10 * Scenarios.dia + 5)
            (Scenarios.membro false None) [])) =
  inl (HTTPException 400 "Matrícula inativa. Check-in não permitido.").
Proof. reflexivity. Qed.

(** Inactive, cancellation date today or later: the check-in is taken. *)
Example scenario_cancel_today :
  fst (create_checkin {| CheckinCreate.aluno_id := 1 |}
         (Scenarios.mundo (10 * Scenarios.dia + 5)
            (Scenarios.membro false (Some 10)) [])) =
  inr (Scenarios.visita (10 * Scenarios.dia + 5) None).
Proof. reflexivity. Qed.

(** ** Registration of members *)


Lemma find_email_none al l :
  find (fun a => String.eqb (email a) (AlunoCreate.email al)) l = None ->
  forall a, In a l -> email a <> AlunoCreate.email al.
Proof.
  intros H a Hi E.
  pose proof (find_none _ _ H a Hi) as Hf. simpl in Hf.
  apply String.eqb_neq in Hf. contradiction.
Qed.

Lemma find_email_in al l a :
  In a l -> email a = AlunoCreate.email al ->
  exists a', find (fun a => String.eqb (email a) (AlunoCreate.email al)) l
             = Some a'.
Proof.
  intros Hi He.
  destruct (find (fun a => String.eqb (email a) (AlunoCreate.email al)) l)
    as [a'|] eqn:Hf.
  - exists a'; reflexivity.
  - exfalso. exact (find_email_none al l Hf a Hi He).
Qed.

Section Registration.

Variable strptime_date : string -> option date.

(** What [create_aluno] stores as cancellation date. *)
Lemma create_aluno_run al w :
  create_aluno strptime_date al w =
  match find (fun a => String.eqb (email a) (AlunoCreate.email al))
             (alunos (db w)) with
  | Some _ => (inl (HTTPException 400 "Email já cadastrado"), w)
  | None =>
      match strptime_date (AlunoCreate.data_nascimento al),
            strptime_date (AlunoCreate.data_matricula al),
            match AlunoCreate.data_cancelamento al with
            | None | Some EmptyString => Some None
            | Some s => option_map Some (strptime_date s)
            end with
      | Some nascimento, Some inicio, Some cancelamento =>
          add_aluno (fun pk =>
            {| matricula := pk;
               nome := AlunoCreate.nome al;
               data_nascimento := nascimento;
               genero := AlunoCreate.genero al;
               email := AlunoCreate.email al;
               plano_id := AlunoCreate.plano_id al;
               data_matricula := at_midnight inicio;
               matricula_ativa := AlunoCreate.matricula_ativa al;
               data_cancelamento := cancelamento |}) w
      | _, _, _ => (inl ValueError, w)
      end
  end.
Proof.
  unfold create_aluno, bind, query_alunos_first, parse_date, ret, raise.
  destruct (find _ (alunos (db w))); [reflexivity|].
  destruct (strptime_date (AlunoCreate.data_nascimento al)); [|reflexivity].
  destruct (strptime_date (AlunoCreate.data_matricula al)); [|reflexivity].
  destruct (AlunoCreate.data_cancelamento al) as [[|ch s]|];
    try reflexivity.
  destruct (strptime_date (String ch s)); reflexivity.
Qed.


End Registration.


Lemma create_aluno_error_world strptime_date al w e w' :
  create_aluno strptime_date al w = (inl e, w') -> w' = w.
Proof.
  rewrite create_aluno_run.
  destruct (find _ (alunos (db w))).
  - intros E. injection E as _ <-. reflexivity.
  - destruct (strptime_date (AlunoCreate.data_nascimento al));
      [|intros E; injection E as _ <-; reflexivity].
    destruct (strptime_date (AlunoCreate.data_matricula al));
      [|intros E; injection E as _ <-; reflexivity].
    destruct (match AlunoCreate.data_cancelamento al with
              | None | Some EmptyString => Some None
              | Some s => option_map Some (strptime_date s)
              end);
      [|intros E; injection E as _ <-; reflexivity].
    unfold add_aluno. discriminate.
Qed.

Lemma create_aluno_ok strptime_date al w a w' :
  create_aluno strptime_date al w = (inr a, w') ->
  find (fun a => String.eqb (email a) (AlunoCreate.email al))
       (alunos (db w)) = None /\
  exists nascimento inicio cancelamento,
    strptime_date (AlunoCreate.data_nascimento al) = Some nascimento /\
    strptime_date (AlunoCreate.data_matricula al) = Some inicio /\
    match AlunoCreate.data_cancelamento al with
    | None | Some EmptyString => Some None
    | Some s => option_map Some (strptime_date s)
    end = Some cancelamento /\
    a = {| matricula := Z.of_nat (List.length (alunos (db w))) + 1;
           nome := AlunoCreate.nome al;
           data_nascimento := nascimento;
           genero := AlunoCreate.genero al;
           email := AlunoCreate.email al;
           plano_id := AlunoCreate.plano_id al;
           data_matricula := at_midnight inicio;
           matricula_ativa := AlunoCreate.matricula_ativa al;
           data_cancelamento := cancelamento |} /\
    w' = {| relogio := relogio w; leituras := leituras w;
            db := {| alunos := (alunos (db w) ++ [a])%list;
                     checkins := checkins (db w) |} |}.
Proof.
  rewrite create_aluno_run.
  destruct (find _ (alunos (db w))); [discriminate|].
  destruct (strptime_date (AlunoCreate.data_nascimento al)) as [n|];
    [|discriminate].
  destruct (strptime_date (AlunoCreate.data_matricula al)) as [i|];
    [|discriminate].
  destruct (match AlunoCreate.data_cancelamento al with
            | None | Some EmptyString => Some None
            | Some s => option_map Some (strptime_date s)
            end) as [c|]; [|discriminate].
  unfold add_aluno. intros E. injection E as <- <-.
  split; [reflexivity|]. exists n, i, c. repeat split.
Qed.

(** X2: a registration that succeeds had an e-mail no stored member has;
    it appends exactly the returned member to the member table and leaves
    the check-ins alone.  The member carries the fields of the request, the
    parsed birth date, the enrolment date at midnight, and as cancellation
    date the parsed one, null when the request has none or an empty
    string. *)
Theorem create_aluno_registers
    (strptime_date : string -> option date)
    (al : AlunoCreate.t) (w : World) (a : Aluno) (w' : World) :
  create_aluno strptime_date al w = (inr a, w') ->
  (forall x, In x (alunos (db w)) -> email x <> AlunoCreate.email al) /\
  alunos (db w') = (alunos (db w) ++ [a])%list /\
  checkins (db w') = checkins (db w) /\
  nome a = AlunoCreate.nome al /\
  genero a = AlunoCreate.genero al /\
  email a = AlunoCreate.email al /\
  plano_id a = AlunoCreate.plano_id al /\
  matricula_ativa a = AlunoCreate.matricula_ativa al /\
  strptime_date (AlunoCreate.data_nascimento al) = Some (data_nascimento a) /\
  (exists d, strptime_date (AlunoCreate.data_matricula al) = Some d /\
             data_matricula a = at_midnight d) /\
  data_cancelamento a =
    match AlunoCreate.data_cancelamento al with
    | None | Some EmptyString => None
    | Some s => strptime_date s
    end.
Proof.
  intros E. apply create_aluno_ok in E.
  destruct E as [Hf [n [i [c [Hn [Hi [Hc [-> ->]]]]]]]]. simpl.
  split; [apply find_email_none; exact Hf|].
  repeat split; try assumption.
  - exists i. split; [exact Hi | reflexivity].
  - destruct (AlunoCreate.data_cancelamento al) as [[|ch s]|].
    + injection Hc as <-. reflexivity.
    + destruct (strptime_date (String ch s)); [|discriminate].
      injection Hc as <-. reflexivity.
    + injection Hc as <-. reflexivity.
Qed.

Lemma create_aluno_registers_witness :
  alunos (db (snd (create_aluno Scenarios.strptime_dia0
                     Scenarios.pedido_ana Scenarios.mundo_inicial))) =
  [Scenarios.membro true None].
Proof.
  destruct (create_aluno Scenarios.strptime_dia0 Scenarios.pedido_ana
              Scenarios.mundo_inicial) as [[e|a] w'] eqn:E;
    [discriminate|].
  destruct (create_aluno_registers _ _ _ _ _ E) as [_ [H _]].
  simpl. rewrite H. injection E as <- _. reflexivity.
Defined.

(** X3: after a registration that succeeds, any registration with the same
    e-mail is refused with 400 and changes nothing. *)
Theorem create_aluno_same_email_refused
    (strptime_date : string -> option date)
    (al al' : AlunoCreate.t) (w : World) (a : Aluno) (w' : World) :
  create_aluno strptime_date al w = (inr a, w') ->
  AlunoCreate.email al' = AlunoCreate.email al ->
  create_aluno strptime_date al' w' =
    (inl (HTTPException 400 "Email já cadastrado"), w').
Proof.
  intros E Heq. apply create_aluno_ok in E.
  destruct E as [_ [n [i [c [_ [_ [_ [Ha Hw]]]]]]]].
  rewrite create_aluno_run.
  destruct (find_email_in al' (alunos (db w')) a) as [a' Hf].
  - rewrite Hw. simpl. apply in_or_app. right. left. reflexivity.
  - rewrite Heq, Ha. reflexivity.
  - rewrite Hf. reflexivity.
Qed.

Lemma create_aluno_same_email_refused_witness :
  create_aluno Scenarios.strptime_dia0 Scenarios.pedido_ana
    (snd (create_aluno Scenarios.strptime_dia0 Scenarios.pedido_ana
            Scenarios.mundo_inicial)) =
  (inl (HTTPException 400 "Email já cadastrado"),
   snd (create_aluno Scenarios.strptime_dia0 Scenarios.pedido_ana
          Scenarios.mundo_inicial)).
Proof.
  apply (create_aluno_same_email_refused Scenarios.strptime_dia0
           Scenarios.pedido_ana Scenarios.pedido_ana
           Scenarios.mundo_inicial (Scenarios.membro true None));
    reflexivity.
Defined.

(** ** What a request does to the store *)

Lemma predict_churn_db predict_proba id w :
  db (snd (predict_churn predict_proba id w)) = db w.
Proof.
  unfold predict_churn.
  destruct (find (fun a => matricula a =? id) (alunos (db w)))
    as [a|] eqn:Hf.
  - rewrite (bind_inr _ _ w (Some a) w)
      by (unfold query_alunos_first; rewrite Hf; reflexivity).
    rewrite (bind_inr _ _ _ _ _ (calcular_metricas_churn_run a w)).
    set (X := vetor_X (metricas_de a w)).
    unfold bind.
    pose proof (coluna_world 1 (predict_proba X) (tick w)) as Hc.
    destruct (coluna 1 (predict_proba X) (tick w)) as [[e|cp] w1];
      simpl in Hc; subst w1; [reflexivity|].
    pose proof (indice_world 0 cp (tick w)) as Hi.
    destruct (indice 0 cp (tick w)) as [[e|p] w2];
      simpl in Hi; subst w2; reflexivity.
  - rewrite (bind_inr _ _ w None w)
      by (unfold query_alunos_first; rewrite Hf; reflexivity).
    reflexivity.
Qed.

Lemma list_checkins_by_aluno_world id w :
  snd (list_checkins_by_aluno id w) = w.
Proof.
  unfold list_checkins_by_aluno, bind, query_checkins_all.
  destruct (filter _ (checkins (db w))); reflexivity.
Qed.

(** A request leaves the store as it was, or it is a registration or a
    check-in that succeeded. *)
Lemma handle_db strptime_date predict_proba req w :
  db (snd (handle strptime_date predict_proba req w)) = db w \/
  (exists al a, req = POST_alunos al /\
     create_aluno strptime_date al w =
       (inr a, snd (handle strptime_date predict_proba req w))) \/
  (exists c ck, req = POST_checkins c /\
     create_checkin c w =
       (inr ck, snd (handle strptime_date predict_proba req w))).
Proof.
  destruct req as [al| |c| |id|id]; unfold handle; rewrite snd_bind_ret.
  - destruct (create_aluno strptime_date al w) as [[e|a] w'] eqn:E.
    + left. simpl. rewrite (create_aluno_error_world _ _ _ _ _ E).
      reflexivity.
    + right. left. exists al, a. split; [reflexivity | exact E].
  - left. reflexivity.
  - destruct (create_checkin c w) as [[e|ck] w'] eqn:E.
    + left. simpl. exact (create_checkin_rejected _ _ _ _ E).
    + right. right. exists c, ck. split; [reflexivity | exact E].
  - left. reflexivity.
  - left. rewrite list_checkins_by_aluno_world. reflexivity.
  - left. apply predict_churn_db.
Qed.

(** X4: the four reading requests never change the store, whatever they
    answer. *)
Theorem reading_requests_keep_store
    (strptime_date : string -> option date)
    (predict_proba : list (list Q) -> list (list Q))
    (req : request) (w : World) :
  (req = GET_alunos \/ req = GET_checkins \/
   (exists id, req = GET_checkins_aluno id) \/
   (exists id, req = GET_churn id)) ->
  db (snd (handle strptime_date predict_proba req w)) = db w.
Proof.
  intros Hr.
  destruct (handle_db strptime_date predict_proba req w)
    as [H|[[al [a [E _]]]|[c [ck [E _]]]]]; [exact H| |];
    subst req;
    destruct Hr as [H|[H|[[id H]|[id H]]]]; discriminate.
Qed.

Lemma reading_requests_keep_store_witness :
  db (snd (handle Scenarios.strptime_dia0 Scenarios.classificador
             (GET_churn 1) Scenarios.mundo_visitado)) =
  db Scenarios.mundo_visitado.
Proof.
  apply (reading_requests_keep_store Scenarios.strptime_dia0
           Scenarios.classificador (GET_churn 1) Scenarios.mundo_visitado).
  right. right. right. exists 1. reflexivity.
Defined.

(** X5: in every world the interface reaches from an empty store, no two
    stored members share an e-mail. *)
Theorem reachable_emails_unique
    (strptime_date : string -> option date)
    (predict_proba : list (list Q) -> list (list Q)) (w : World) :
  reachable strptime_date predict_proba w ->
  NoDup (map email (alunos (db w))).
Proof.
  induction 1 as [rel n|w req _ IH]; [constructor|].
  destruct (handle_db strptime_date predict_proba req w)
    as [H|[[al [a [_ E]]]|[c [ck [_ E]]]]].
  - rewrite H. exact IH.
  - apply create_aluno_ok in E.
    destruct E as [Hf [n [i [cd [_ [_ [_ [Ha Hw]]]]]]]].
    rewrite Hw. simpl. rewrite map_app. simpl.
    apply (Permutation_NoDup
             (Permutation_cons_append (map email (alunos (db w))) (email a))).
    constructor; [|exact IH].
    intros Hin. apply in_map_iff in Hin. destruct Hin as [x [Ex Hx]].
    apply (find_email_none al _ Hf x Hx).
    rewrite Ex, Ha. reflexivity.
  - apply create_checkin_created in E.
    destruct E as [_ [_ [_ [_ Ha]]]]. rewrite Ha. exact IH.
Qed.

Lemma reachable_emails_unique_witness :
  NoDup (map email (alunos (db Scenarios.mundo_visitado))).
Proof.
  apply (reachable_emails_unique Scenarios.strptime_dia0
           Scenarios.classificador).
  unfold Scenarios.mundo_visitado. apply reach_step, reach_step, reach_init.
Defined.

(** X6: in every world the interface reaches from an empty store, every
    stored check-in carries the number of a stored member. *)
Theorem reachable_checkins_have_member
    (strptime_date : string -> option date)
    (predict_proba : list (list Q) -> list (list Q)) (w : World) :
  reachable strptime_date predict_proba w ->
  forall c, In c (checkins (db w)) ->
  exists a, In a (alunos (db w)) /\ matricula a = aluno_id c.
Proof.
  induction 1 as [rel n|w req _ IH]; [intros c []|].
  intros c Hc.
  destruct (handle_db strptime_date predict_proba req w)
    as [H|[[al [a [_ E]]]|[cc [ck [_ E]]]]].
  - rewrite H in *. apply IH, Hc.
  - apply create_aluno_ok in E.
    destruct E as [_ [n [i [cd [_ [_ [_ [_ Hw]]]]]]]].
    rewrite Hw in *. simpl in *.
    destruct (IH c Hc) as [x [Hx Ex]].
    exists x. split; [apply in_or_app; left; exact Hx | exact Ex].
  - destruct (find (fun a => matricula a =? CheckinCreate.aluno_id cc)
                (alunos (db w))) as [a|] eqn:Hf.
    + apply create_checkin_created in E.
      destruct E as [Hid [_ [_ [Hcs Has]]]].
      rewrite Hcs in Hc. rewrite Has.
      apply in_app_or in Hc. destruct Hc as [Hc|[<-|[]]].
      * apply IH, Hc.
      * apply find_some in Hf. destruct Hf as [Hi Hm].
        exists a. split; [exact Hi|]. rewrite Hid.
        apply Z.eqb_eq. exact Hm.
    + unfold create_checkin, bind, query_alunos_first in E.
      rewrite Hf in E. discriminate.
Qed.

Lemma reachable_checkins_have_member_witness :
  exists a, In a (alunos (db Scenarios.mundo_visitado)) /\
            matricula a = aluno_id (Scenarios.visita Scenarios.dia None).
Proof.
  apply (reachable_checkins_have_member Scenarios.strptime_dia0
           Scenarios.classificador Scenarios.mundo_visitado).
  - unfold Scenarios.mundo_visitado.
    apply reach_step, reach_step, reach_init.
  - left. reflexivity.
Defined.

(** ** Check-ins: failures and listings *)

Lemma find_matricula_none id l :
  find (fun a => matricula a =? id) l = None <->
  forall a, In a l -> matricula a <> id.
Proof.
  split.
  - intros H a Hi E. pose proof (find_none _ _ H a Hi) as Hf.
    simpl in Hf. apply Z.eqb_neq in Hf. contradiction.
  - intros H. destruct (find (fun a => matricula a =? id) l) as [a|] eqn:Hf;
      [|reflexivity].
    apply find_some in Hf. destruct Hf as [Hi Hm].
    apply Z.eqb_eq in Hm. exfalso. exact (H a Hi Hm).
Qed.

Lemma filter_aluno_id_nil id l :
  filter (fun c => aluno_id c =? id) l = [] <->
  forall c, In c l -> aluno_id c <> id.
Proof.
  split.
  - intros H c Hi E.
    assert (Hin : In c (filter (fun c => aluno_id c =? id) l)).
    { apply filter_In. split; [exact Hi | apply Z.eqb_eq; exact E]. }
    rewrite H in Hin. contradiction.
  - intros H. destruct (filter (fun c => aluno_id c =? id) l) as [|c r] eqn:Hf;
      [reflexivity|].
    assert (Hin : In c (filter (fun c => aluno_id c =? id) l))
      by (rewrite Hf; left; reflexivity).
    apply filter_In in Hin. destruct Hin as [Hi Hm].
    apply Z.eqb_eq in Hm. exfalso. exact (H c Hi Hm).
Qed.

(** X7: [create_checkin] answers 404 exactly when no stored member has the
    number of the request, and then it has not read the clock; its only
    other failure is the 400 of the enrolment gate; no failure changes the
    store. *)
Theorem create_checkin_failures (c : CheckinCreate.t) (w : World) :
  (fst (create_checkin c w) =
     inl (HTTPException 404 "Aluno não encontrado") <->
   forall a, In a (alunos (db w)) ->
             matricula a <> CheckinCreate.aluno_id c) /\
  (fst (create_checkin c w) =
     inl (HTTPException 404 "Aluno não encontrado") ->
   snd (create_checkin c w) = w) /\
  (forall e,
     fst (create_checkin c w) = inl e ->
     (e = HTTPException 404 "Aluno não encontrado" \/
      e = HTTPException 400 "Matrícula inativa. Check-in não permitido.") /\
     db (snd (create_checkin c w)) = db w).
Proof.
  rewrite <- find_matricula_none.
  destruct (find (fun a => matricula a =? CheckinCreate.aluno_id c)
              (alunos (db w))) as [a|] eqn:Hf.
  - rewrite (create_checkin_run c w a Hf).
    destruct (negb (matricula_ativa a) && _); simpl.
    + split; [split; discriminate|]. split; [discriminate|].
      intros e E. injection E as <-. split; [right|]; reflexivity.
    + split; [split; discriminate|]. split; discriminate.
  - assert (R : create_checkin c w =
                (inl (HTTPException 404 "Aluno não encontrado"), w)).
    { unfold create_checkin, bind, query_alunos_first. rewrite Hf.
      reflexivity. }
    rewrite R. simpl. split; [split; reflexivity|].
    split; [reflexivity|].
    intros e E. injection E as <-. split; [left|]; reflexivity.
Qed.

Lemma create_checkin_failures_witness :
  fst (create_checkin {| CheckinCreate.aluno_id := 7 |}
         Scenarios.mundo_visitado) =
  inl (HTTPException 404 "Aluno não encontrado").
Proof.
  destruct (create_checkin_failures {| CheckinCreate.aluno_id := 7 |}
              Scenarios.mundo_visitado) as [[_ R] _].
  apply R. intros a [<-|[]]. discriminate.
Defined.

(** X8: [list_checkins_by_aluno] answers 404 exactly when no stored
    check-in has the given member number; otherwise it returns, in stored
    order, the non-empty list of the check-ins with that number.  It never
    changes the world. *)
Theorem list_checkins_by_aluno_answer (id : Z) (w : World) :
  (fst (list_checkins_by_aluno id w) =
     inl (HTTPException 404 "Nenhum check-in encontrado para este aluno") <->
   forall c, In c (checkins (db w)) -> aluno_id c <> id) /\
  (forall l,
     fst (list_checkins_by_aluno id w) = inr l ->
     l <> [] /\
     l = filter (fun c => aluno_id c =? id) (checkins (db w))) /\
  (forall e,
     fst (list_checkins_by_aluno id w) = inl e ->
     e = HTTPException 404 "Nenhum check-in encontrado para este aluno") /\
  snd (list_checkins_by_aluno id w) = w.
Proof.
  rewrite <- filter_aluno_id_nil.
  split; [|split; [|split; [|apply list_checkins_by_aluno_world]]];
    unfold list_checkins_by_aluno, bind, query_checkins_all, raise, ret;
    destruct (filter (fun c => aluno_id c =? id) (checkins (db w)))
      as [|c r]; simpl.
  - split; reflexivity.
  - split; discriminate.
  - discriminate.
  - intros l E. injection E as <-. split; [discriminate | reflexivity].
  - intros e E. injection E as <-. reflexivity.
  - discriminate.
Qed.

Lemma list_checkins_by_aluno_answer_witness :
  fst (list_checkins_by_aluno 7 Scenarios.mundo_visitado) =
  inl (HTTPException 404 "Nenhum check-in encontrado para este aluno").
Proof.
  destruct (list_checkins_by_aluno_answer 7 Scenarios.mundo_visitado)
    as [[_ R] _].
  apply R. intros c [<-|[]]. discriminate.
Defined.

(** X9: after a check-in that succeeds, the listing of that member cannot
    answer 404: it returns the member's earlier check-ins followed by the
    new one, and the full listing returns the earlier table followed by the
    new one. *)
Theorem checkin_then_listed
    (c : CheckinCreate.t) (w : World) (ck : Checkin) (w' : World) :
  create_checkin c w = (inr ck, w') ->
  fst (list_checkins_by_aluno (CheckinCreate.aluno_id c) w') =
    inr (filter (fun x => aluno_id x =? CheckinCreate.aluno_id c)
           (checkins (db w)) ++ [ck])%list /\
  fst (list_checkins w') = inr (checkins (db w) ++ [ck])%list.
Proof.
  intros E. apply create_checkin_created in E.
  destruct E as [Hid [_ [_ [Hcs _]]]].
  unfold list_checkins_by_aluno, list_checkins, bind, query_checkins_all,
    ret, raise.
  rewrite Hcs. split.
  - rewrite filter_app. simpl. rewrite Hid, Z.eqb_refl.
    destruct (filter _ (checkins (db w))); reflexivity.
  - simpl. f_equal. clear. induction (checkins (db w) ++ [ck])%list
      as [|x r IH]; simpl; [reflexivity | rewrite IH; reflexivity].
Qed.

Lemma checkin_then_listed_witness :
  fst (list_checkins_by_aluno 1 Scenarios.mundo_visitado) =
  inr [Scenarios.visita Scenarios.dia None].
Proof.
  destruct (create_checkin {| CheckinCreate.aluno_id := 1 |}
              (snd (handle Scenarios.strptime_dia0 Scenarios.classificador
                      (POST_alunos Scenarios.pedido_ana)
                      Scenarios.mundo_inicial))) as [[e|ck] w'] eqn:E;
    [discriminate|].
  destruct (checkin_then_listed _ _ _ _ E) as [H _].
  injection E as <- <-. exact H.
Defined.

(** X10: a check-in that succeeds adds the new event to the history of the
    members with the number of the request, after the earlier events, and
    leaves the history of every other member as it was. *)
Theorem checkin_history_effect
    (c : CheckinCreate.t) (w : World) (ck : Checkin) (w' : World)
    (a : Aluno) :
  create_checkin c w = (inr ck, w') ->
  (matricula a = CheckinCreate.aluno_id c ->
   historico a w' = (historico a w ++ [ck])%list) /\
  (matricula a <> CheckinCreate.aluno_id c ->
   historico a w' = historico a w).
Proof.
  intros E. apply create_checkin_created in E.
  destruct E as [Hid [_ [_ [Hcs _]]]].
  unfold historico. rewrite Hcs, filter_app. simpl. rewrite Hid. split.
  - intros ->. rewrite Z.eqb_refl. reflexivity.
  - intros Hne. apply not_eq_sym in Hne. apply Z.eqb_neq in Hne.
    rewrite Hne. apply app_nil_r.
Qed.

Lemma checkin_history_effect_witness :
  historico (Scenarios.membro true None) Scenarios.mundo_visitado =
  [Scenarios.visita Scenarios.dia None].
Proof.
  destruct (create_checkin {| CheckinCreate.aluno_id := 1 |}
              (snd (handle Scenarios.strptime_dia0 Scenarios.classificador
                      (POST_alunos Scenarios.pedido_ana)
                      Scenarios.mundo_inicial))) as [[e|ck] w'] eqn:E;
    [discriminate|].
  destruct (checkin_history_effect _ _ _ _ (Scenarios.membro true None) E)
    as [H _].
  injection E as <- <-. exact (H eq_refl).
Defined.

(** ** Prediction: failures *)

Lemma coluna_error j rows w e :
  fst (coluna j rows w) = inl e -> e = IndexError.
Proof.
  induction rows as [|row r IH]; simpl; [discriminate|].
  destruct (nth_error row j); [|intros E; injection E as <-; reflexivity].
  unfold bind, ret. destruct (coluna j r w) as [[e'|xs] w']; simpl in *.
  - intros E. injection E as <-. apply IH. reflexivity.
  - discriminate.
Qed.

Lemma indice_error i xs w e :
  fst (indice i xs w) = inl e -> e = IndexError.
Proof.
  unfold indice. destruct (nth_error xs i); [discriminate|].
  intros E. injection E as <-. reflexivity.
Qed.



(** ** Metrics: last check-in, order of the rows, size of the frequency *)

(** X12: for a non-empty history the days since the last check-in are
    counted from the greatest entry timestamp, wherever it is stored, and
    are the number of whole 24-hour periods between it and the reading of
    the clock. *)
Theorem days_since_latest_entry (a : Aluno) (w : World) :
  historico a w <> [] ->
  exists m,
    fst (calcular_metricas_churn a w) = inr m /\
    let latest_entry := latest 0 (entradas (historico a w)) in
    In latest_entry (entradas (historico a w)) /\
    Forall (fun t => t <= latest_entry) (entradas (historico a w)) /\
    Metricas.tempo_ultimo_checkin m = days (sub (agora w) latest_entry) /\
    Metricas.tempo_ultimo_checkin m * us_per_day
      <= agora w - latest_entry
      < (Metricas.tempo_ultimo_checkin m + 1) * us_per_day.
Proof.
  intros Hne. exists (metricas_de a w).
  split; [apply calcular_metricas_churn_returns|].
  unfold metricas_de. cbn [Metricas.tempo_ultimo_checkin]. cbv zeta.
  destruct (historico a w) as [|c r]; [congruence|].
  destruct (latest_greatest 0 (data_hora_entrada c) (entradas r))
    as [Hi Hf].
  change (data_hora_entrada c :: entradas r) with (entradas (c :: r))
    in Hi, Hf.
  split; [exact Hi|]. split; [exact Hf|]. split; [reflexivity|].
  unfold days, sub.
  set (td := agora w - latest 0 (entradas (c :: r))).
  assert (Hpos : 0 < us_per_day) by reflexivity.
  pose proof (Z.mul_div_le td us_per_day Hpos).
  pose proof (Z.mul_succ_div_gt td us_per_day Hpos).
  lia.
Qed.

Lemma days_since_latest_entry_witness :
  exists m,
    fst (calcular_metricas_churn (Scenarios.membro true None)
           (Scenarios.mundo (14 * Scenarios.dia)
              (Scenarios.membro true None)
              [Scenarios.visita (7 * Scenarios.dia) None;
               Scenarios.visita 0 None])) = inr m /\
    Metricas.tempo_ultimo_checkin m = 7.
Proof.
  destruct (days_since_latest_entry (Scenarios.membro true None)
              (Scenarios.mundo (14 * Scenarios.dia)
                 (Scenarios.membro true None)
                 [Scenarios.visita (7 * Scenarios.dia) None;
                  Scenarios.visita 0 None]))
    as [m [E [_ [_ [T _]]]]]; [discriminate|].
  exists m. split; [exact E|]. rewrite T. reflexivity.
Defined.







(** X14: for a non-empty history the weekly frequency is positive and at
    most the number of check-ins, and it is that number whenever the first
    check-in is less than 14 days before the reading of the clock. *)
Theorem weekly_frequency_bounds (a : Aluno) (w : World) :
  historico a w <> [] ->
  exists m,
    fst (calcular_metricas_churn a w) = inr m /\
    let n := inject_Z (Z.of_nat (List.length (historico a w))) in
    (0 < Metricas.frequencia_semanal m)%Q /\
    (Metricas.frequencia_semanal m <= n)%Q /\
    (sub (agora w) (earliest 0 (entradas (historico a w)))
       < 14 * us_per_day ->
     (Metricas.frequencia_semanal m == n)%Q).
Proof.
  intros Hne. exists (metricas_de a w).
  split; [apply calcular_metricas_churn_returns|].
  unfold metricas_de. cbn [Metricas.frequencia_semanal]. cbv zeta.
  destruct (historico a w) as [|c r]; [congruence|].
  set (n := Z.of_nat (List.length (c :: r))).
  set (d := days (sub (agora w) (earliest 0 (entradas (c :: r))))).
  assert (Hn : 1 <= n) by (unfold n; simpl List.length; lia).
  assert (Hs : 1 <= Z.max 1 (d / 7)) by apply Z.le_max_l.
  assert (Hsq : (0 < inject_Z (Z.max 1 (d / 7)))%Q)
    by (apply inject_Z_pos; lia).
  split; [|split].
  - apply Qlt_shift_div_l; [exact Hsq|].
    setoid_replace (0 * inject_Z (Z.max 1 (d / 7)))%Q with 0%Q by ring.
    apply inject_Z_pos. lia.
  - apply Qle_shift_div_r; [exact Hsq|].
    rewrite <- inject_Z_mult, <- Zle_Qle. nia.
  - intros Hlt.
    assert (Hd : d < 14).
    { unfold d, days. apply Z.div_lt_upper_bound; [reflexivity|].
      rewrite Z.mul_comm. exact Hlt. }
    assert (Hw : d / 7 < 2)
      by (apply Z.div_lt_upper_bound; lia).
    replace (Z.max 1 (d / 7)) with 1 by lia.
    unfold Qdiv. change (/ inject_Z 1)%Q with 1%Q. ring.
Qed.

Lemma weekly_frequency_bounds_witness :
  exists m,
    fst (calcular_metricas_churn (Scenarios.membro true None)
           (Scenarios.mundo (13 * Scenarios.dia)
              (Scenarios.membro true None)
              [Scenarios.visita (7 * Scenarios.dia) None;
               Scenarios.visita 0 None])) = inr m /\
    (Metricas.frequencia_semanal m == 2)%Q.
Proof.
  destruct (weekly_frequency_bounds (Scenarios.membro true None)
              (Scenarios.mundo (13 * Scenarios.dia)
                 (Scenarios.membro true None)
                 [Scenarios.visita (7 * Scenarios.dia) None;
                  Scenarios.visita 0 None]))
    as [m [E [_ [_ F]]]]; [discriminate|].
  exists m. split; [exact E|]. apply F. reflexivity.
Defined.

(** ** Registration followed by other requests *)

Lemma filter_true {A} (l : list A) : filter (fun _ => true) l = l.
Proof. induction l as [|x r IH]; simpl; [|rewrite IH]; reflexivity. Qed.

(** X15: after a registration that succeeds, the listing of members
    returns the earlier members followed by the new one, and neither a
    check-in nor a prediction for the number of the new member is answered
    with 404. *)
Theorem registered_member_is_known
    (strptime_date : string -> option date)
    (predict_proba : list (list Q) -> list (list Q))
    (al : AlunoCreate.t) (w : World) (a : Aluno) (w' : World) :
  create_aluno strptime_date al w = (inr a, w') ->
  fst (get_alunos w') = inr (alunos (db w) ++ [a])%list /\
  fst (create_checkin {| CheckinCreate.aluno_id := matricula a |} w') <>
    inl (HTTPException 404 "Aluno não encontrado") /\
  fst (predict_churn predict_proba (matricula a) w') <>
    inl (HTTPException 404 "Aluno não encontrado").
Proof.
  intros E. apply create_aluno_ok in E.
  destruct E as [_ [n [i [c [_ [_ [_ [_ Hw]]]]]]]].
  assert (Hin : In a (alunos (db w'))).
  { rewrite Hw. simpl. apply in_or_app. right. left. reflexivity. }
  assert (Hf : find (fun x => matricula x =? matricula a) (alunos (db w'))
               <> None).
  { intros Hnone.
    exact (proj1 (find_matricula_none (matricula a) (alunos (db w')))
             Hnone a Hin eq_refl). }
  split; [|split].
  - unfold get_alunos, query_alunos_all. simpl.
    rewrite filter_true, Hw. reflexivity.
  - destruct (find (fun x => matricula x =? matricula a) (alunos (db w')))
      as [x|] eqn:Hx; [|congruence].
    rewrite (create_checkin_run {| CheckinCreate.aluno_id := matricula a |}
               w' x Hx).
    destruct (negb (matricula_ativa x) && _); discriminate.
  - intros E404.
    destruct (find (fun x => matricula x =? matricula a) (alunos (db w')))
      as [x|] eqn:Hx; [|congruence].
    unfold predict_churn in E404.
    rewrite (bind_inr _ _ w' (Some x) w') in E404
      by (unfold query_alunos_first; rewrite Hx; reflexivity).
    rewrite (bind_inr _ _ _ _ _ (calcular_metricas_churn_run x w')) in E404.
    unfold bind, ret in E404.
    pose proof (coluna_error 1
                  (predict_proba (vetor_X (metricas_de x w'))) (tick w'))
      as Hc.
    destruct (coluna 1 (predict_proba (vetor_X (metricas_de x w')))
                (tick w')) as [[e1|cp] w1]; simpl in *.
    + injection E404 as ->. specialize (Hc _ eq_refl). discriminate.
    + pose proof (indice_error 0 cp w1) as Hi.
      destruct (indice 0 cp w1) as [[e2|p] w2]; simpl in *;
        [|discriminate].
      injection E404 as ->. specialize (Hi _ eq_refl). discriminate.
Qed.

Lemma registered_member_is_known_witness :
  fst (get_alunos
         (snd (create_aluno Scenarios.strptime_dia0 Scenarios.pedido_ana
                 Scenarios.mundo_inicial))) =
  inr [Scenarios.membro true None].
Proof.
  destruct (create_aluno Scenarios.strptime_dia0 Scenarios.pedido_ana
              Scenarios.mundo_inicial) as [[e|a] w'] eqn:E;
    [discriminate|].
  destruct (registered_member_is_known Scenarios.strptime_dia0
              Scenarios.classificador _ _ _ _ E) as [H _].
  injection E as <- <-. exact H.
Defined.
